(** * sp-build-tasks: the [Build] helper of [src/utils/build.ts]

    A shallow embedding of the [Build] class: path resolution of template
    jobs, template rendering, file concatenation, the minifier wrappers and
    the Sass wrapper, followed by the properties of the specification that
    were checked against it.

    External collaborators (the file system, Handlebars, UglifyJS, CleanCSS,
    node-sass, less) are interfaces; Node's [path] module is modelled for
    POSIX paths, segment by segment. The method of the [Copy] class of
    [./copy] that [copyAssets] calls is a parameter. *)

From Stdlib Require Import String Ascii List Bool Arith ZArith Lia.
From stdpp Require Import base option list gmap strings.

Local Open Scope string_scope.
Local Open Scope list_scope.

(** ** JavaScript strings *)

Module JS.

(** [a + b] on strings. *)
Definition cat (a b : string) : string := String.append a b.

(** [s.length === 0]. *)
Definition isEmpty (s : string) : bool :=
  match s with EmptyString => true | String _ _ => false end.

(** Truthiness of an optional string: [undefined] and the empty string
    are falsy, every other string is truthy. *)
Definition truthy (o : option string) : bool :=
  match o with
  | Some s => negb (isEmpty s)
  | None => false
  end.

(** [s.indexOf(sub)]: [None] stands for [-1]. *)
Definition indexOf (s sub : string) : option nat := String.index 0 sub s.

(** [s.indexOf(sub) !== 0]. *)
Definition indexOf_isnt_0 (s sub : string) : bool :=
  match indexOf s sub with
  | Some 0 => false
  | _ => true
  end.

(** [arr.join(sep)]. *)
Definition join (sep : string) (arr : list string) : string :=
  String.concat sep arr.

(** Last character of a string, if any. *)
Fixpoint lastChar (s : string) : option ascii :=
  match s with
  | EmptyString => None
  | String c EmptyString => Some c
  | String _ r => lastChar r
  end.

Definition firstChar (s : string) : option ascii :=
  match s with
  | EmptyString => None
  | String c _ => Some c
  end.

End JS.

(** ** Node's [path] module, POSIX flavour *)

Module Path.

Definition isSlash (c : ascii) : bool := Ascii.eqb c "/"%char.
Definition isDot (c : ascii) : bool := Ascii.eqb c "."%char.

(** The segments of a path: the pieces between the separators, empty
    pieces included, so that [n] separators give [n + 1] segments. *)
Fixpoint segments (p : string) : list string :=
  match p with
  | EmptyString => [EmptyString]
  | String c r =>
      if isSlash c then EmptyString :: segments r
      else match segments r with
           | seg :: segs => String c seg :: segs
           | [] => [String c EmptyString]
           end
  end.

(** [normalizeString(path, allowAboveRoot, '/', isPosixPathSeparator)] on
    segments. [res] is the output built so far, last segment first. An
    empty segment and [.] are dropped; [..] removes the last segment kept
    unless there is none or it is [..] itself, in which case [..] is kept
    when [allowAboveRoot] holds and dropped otherwise. *)
Fixpoint normalizeSegments (allowAboveRoot : bool) (res : list string)
    (segs : list string) : list string :=
  match segs with
  | [] => rev res
  | seg :: rest =>
      if String.eqb seg "" || String.eqb seg "." then
        normalizeSegments allowAboveRoot res rest
      else if String.eqb seg ".." then
        match res with
        | last :: res' =>
            if String.eqb last ".." then
              normalizeSegments allowAboveRoot
                (if allowAboveRoot then ".." :: res else res) rest
            else normalizeSegments allowAboveRoot res' rest
        | [] =>
            normalizeSegments allowAboveRoot
              (if allowAboveRoot then [".."] else []) rest
        end
      else normalizeSegments allowAboveRoot (seg :: res) rest
  end.

Definition normalizeString (p : string) (allowAboveRoot : bool) : string :=
  JS.join "/" (normalizeSegments allowAboveRoot [] (segments p)).

Definition isAbsolute (p : string) : bool :=
  match JS.firstChar p with Some c => isSlash c | None => false end.

Definition trailingSeparator (p : string) : bool :=
  match JS.lastChar p with Some c => isSlash c | None => false end.

(** [path.normalize(p)]. *)
Definition normalize (p : string) : string :=
  if JS.isEmpty p then "."
  else
    let isAbs := isAbsolute p in
    let trailing := trailingSeparator p in
    let p' := normalizeString p (negb isAbs) in
    if JS.isEmpty p' then
      if isAbs then "/" else if trailing then "./" else "."
    else
      let p'' := if trailing then JS.cat p' "/" else p' in
      if isAbs then JS.cat "/" p'' else p''.

(** The loop of [path.join(...args)] that glues the non-empty arguments
    with a separator; [None] stands for [joined === undefined]. *)
Fixpoint joinArgs (joined : option string) (args : list string)
    : option string :=
  match args with
  | [] => joined
  | arg :: rest =>
      if JS.isEmpty arg then joinArgs joined rest
      else
        match joined with
        | None => joinArgs (Some arg) rest
        | Some j => joinArgs (Some (JS.cat j (JS.cat "/" arg))) rest
        end
  end.

(** [path.join(...args)]. *)
Definition join (args : list string) : string :=
  match joinArgs None args with
  | None => "."
  | Some joined => normalize joined
  end.

(** The last non-empty segment of a path, or the empty string: the [base]
    that [path.parse] reports. *)
Definition baseOf (p : string) : string :=
  List.last (List.filter (fun s => negb (JS.isEmpty s)) (segments p)) "".

(** Position of the last dot of a segment. *)
Fixpoint lastDot (s : string) : option nat :=
  match s with
  | EmptyString => None
  | String c r =>
      match lastDot r with
      | Some i => Some (S i)
      | None => if isDot c then Some 0 else None
      end
  end.

(** The part of [path.parse(p)] that [Build] reads. *)
Record ParsedPath := { base : string; ext : string; name : string }.

(** [path.parse(p)]: the extension starts at the last dot of the base,
    except that a base without a dot, a base whose only dot is its first
    character, and the base [..] have no extension. *)
Definition parse (p : string) : ParsedPath :=
  let b := baseOf p in
  match lastDot b with
  | None => {| base := b; ext := ""; name := b |}
  | Some 0 => {| base := b; ext := ""; name := b |}
  | Some i =>
      if String.eqb b ".." then {| base := b; ext := ""; name := b |}
      else {| base := b;
              ext := String.substring i (String.length b - i) b;
              name := String.substring 0 i b |}
  end.

(** [path.dirname(p)], scanning [p] from its end down to index 1 as the
    library does. [dirnameScan] receives the characters after the first
    one, last first, and returns what precedes the separator that ends the
    directory part, last first. *)
Fixpoint dirnameScan (matchedSlash : bool) (rev_tail : list ascii)
    : option (list ascii) :=
  match rev_tail with
  | [] => None
  | c :: rest =>
      if isSlash c then
        if matchedSlash then dirnameScan true rest else Some rest
      else dirnameScan false rest
  end.

Definition dirname (p : string) : string :=
  match p with
  | EmptyString => "."
  | String c0 tl =>
      let hasRoot := isSlash c0 in
      match dirnameScan true (rev (list_ascii_of_string tl)) with
      | None => if hasRoot then "/" else "."
      | Some [] => if hasRoot then "//" else String c0 EmptyString
      | Some pre => String c0 (string_of_list_ascii (rev pre))
      end
  end.

End Path.

(** ** Outcomes *)

(** What a failing operation carries. [IOError] is a system error of the
    file system ([ENOENT], [EACCES], ...), [TypeError] the runtime's own,
    the others are raised by the collaborators. *)
Inductive error : Type :=
| IOError (errno : string)
| TypeError (msg : string)
| TemplateError (msg : string)
| StylesheetCompileError (msg : string)
| MinifyError (msg : string).

(** A synchronous call either returns or throws; the promise of an [async]
    function is either fulfilled or rejected. *)
Inductive result (E A : Type) : Type :=
| Ok (a : A)
| Err (e : E).
Arguments Ok {E A} a.
Arguments Err {E A} e.

Definition bind {E A B} (r : result E A) (k : A -> result E B) : result E B :=
  match r with
  | Ok a => k a
  | Err e => Err e
  end.

Definition isOk {E A} (r : result E A) : bool :=
  match r with Ok _ => true | Err _ => false end.

(** The state of a promise built with [new Promise((resolve, reject) => ...)]
    once its callbacks have run: the first [resolve] or [reject] settles it,
    later ones do nothing, and it stays pending when neither is reached. *)
Inductive settle (A : Type) : Type :=
| Pending
| Fulfilled (a : A)
| Rejected (e : error).
Arguments Pending {A}.
Arguments Fulfilled {A} a.
Arguments Rejected {A} e.

Definition settleWith {A} (s new : settle A) : settle A :=
  match s with
  | Pending => new
  | _ => s
  end.

(** A promise together with the exception, if any, that escaped from one of
    the callbacks that were to settle it. Such an exception is thrown into
    the event loop, not into the promise: by default it ends the process. *)
Record outcome (A : Type) : Type :=
  { promise : settle A; uncaught : option error }.
Arguments promise {A} _.
Arguments uncaught {A} _.

Definition isFulfilled {A} (o : outcome A) : bool :=
  match promise o, uncaught o with
  | Fulfilled _, None => true
  | _, _ => false
  end.

(** ** Collaborators *)

Definition errno : Type := string.

(** The file system as [Build] uses it through [fs] and [mkdirp]. Reading
    does not change it; a failed write or directory creation leaves the
    state it was given. *)
Class FileSystem (FS : Type) : Type := {
  existsSync : FS -> string -> bool;
  (** [fs.readFileSync(path, encoding)] and [fs.readFile]. *)
  readFile : FS -> string -> string -> result errno string;
  (** [fs.writeFileSync(path, data, {encoding})] and [fs.writeFile]. *)
  writeFile : FS -> string -> string -> string -> result errno FS;
  (** [mkdirp.sync(dir)]. *)
  mkdirp : FS -> string -> result errno FS
}.

(** Values of a data context. *)
Definition loc : Type := positive.

Inductive value : Type :=
| VString (s : string)
| VNumber (z : Z)
| VBool (b : bool)
| VNull
| VRef (l : loc).

(** An object is its own enumerable properties; the heap holds the objects
    that the caller and [Build] share by reference. *)
Abbreviation object := (gmap string value).
Abbreviation Heap := (gmap loc (gmap string value)).

(** What the libraries take and return, as far as [Build] looks at it. *)
Module uglifyJS.
Record MinifyOutput := { code : string; map : string }.
End uglifyJS.

Module CleanCSS.
Record Output := { styles : string }.
End CleanCSS.

Module sass.
Record Options := {
  file : option string;
  data : option string;
  outputStyle : string;
  outFile : option string;
  sourceMap : option string;
  sourceMapContents : option bool
}.
Record Result := { css : string; map : option string }.
End sass.

(** The libraries [Build] delegates to, and the process it runs in. *)
Record Collaborators := {
  (** [Handlebars.compile(body)] applied to a data context. *)
  Handlebars_compile : string -> Heap -> loc -> result error string;
  (** [uglifyJS.minify(content, {..., fromString: true})]. *)
  uglifyJS_minify : string -> result error uglifyJS.MinifyOutput;
  (** [new CleanCSS({}).minify(content)]. *)
  CleanCSS_minify : string -> result error CleanCSS.Output;
  (** [sass.render(options, callback)]: what the callback receives. *)
  sass_render : sass.Options -> result error sass.Result;
  (** [require('less')]: [None] when the module is not installed; otherwise
      [less.render(content, {filename}, callback)], whose callback receives
      the error message or the css. *)
  require_less : option (string -> string -> result string string);
  (** [process.cwd()]. *)
  process_cwd : string
}.

(** ** The interfaces of [../interfaces] that [Build] reads *)

Record IBuildSettings := {
  src : option string;
  dist : option string;
  fileEncoding : option string
}.

Record IBuildCustomCssFromScss := {
  file : option string;
  data : option string;
  outputStyle : option string;
  outFile : option string;
  sourceMap : option string;
  sourceMapContents : option bool
}.

Record IConcatFilesContent := {
  filesArr : option (list string);
  concat_distPath : option string
}.

Record IMinifyContent := {
  content : option string;
  srcPath : option string;
  distPath : option string
}.

(** [data] is a reference to the caller's object, or [undefined]. *)
Record ICompileHbsTemplate := {
  source : string;
  target : string;
  hbs_data : option loc
}.

Record HbsFile := { file_source : string; file_target : string }.

Record ICompileHbsTemplates := {
  files : list HbsFile;
  hbss_data : option loc
}.

Record HbsResult := { targetBody : string; targetPath : string }.

(** ** The class [Build] *)

(** [this.settings] after the constructor: every field is set. *)
Record Settings := {
  settings_src : string;
  settings_dist : string;
  settings_fileEncoding : string
}.

(** [a || b] where [a] is an optional string. *)
Definition orDefault (a : option string) (b : string) : string :=
  match a with
  | Some s => if JS.isEmpty s then b else s
  | None => b
  end.

(** [constructor(settings: IBuildSettings = {})]. *)
Definition Build (settings : IBuildSettings) : Settings :=
  {| settings_src := orDefault (src settings) "./src";
     settings_dist := orDefault (dist settings) "./dist";
     settings_fileEncoding := orDefault (fileEncoding settings) "utf-8" |}.

Definition defaultSettings : IBuildSettings :=
  {| src := None; dist := None; fileEncoding := None |}.

(** [private EOL: string = '\n']. *)
Definition EOL : string := String (ascii_of_nat 10) EmptyString.

(** The test and the join that [compileHbsTemplate] applies to [source]
    against [settings.src] and to [target] against [settings.dist]:
    both are normalized and the root is put in front unless the path
    starts with it. *)
Definition resolvePath (root p : string) : string :=
  let root := Path.normalize root in
  let p := Path.normalize p in
  if JS.indexOf_isnt_0 p root then Path.join [root; p] else p.

(** [path.resolve(p)] for a process whose working directory is [cwd]. *)
Definition path_resolve (cwd p : string) : string :=
  let full :=
    if JS.isEmpty p then JS.cat cwd "/"
    else if Path.isAbsolute p then JS.cat p "/"
    else JS.cat cwd (JS.cat "/" (JS.cat p "/")) in
  if Path.isAbsolute full then JS.cat "/" (Path.normalizeString full false)
  else
    let r := Path.normalizeString full true in
    if JS.isEmpty r then "." else r.

(** The component files of Bootstrap 3 that are bundled, in order. *)
Definition bootstrapFiles : list string :=
  [ "variables"; "mixins";
    "print"; "glyphicons";
    "code"; "grid"; "tables"; "forms"; "buttons";
    "component-animations"; "dropdowns"; "button-groups"; "input-groups";
    "navs"; "navbar"; "breadcrumbs"; "pagination"; "pager";
    "badges"; "jumbotron"; "thumbnails"; "alerts"; "progress-bars"; "media";
    "list-group"; "panels"; "responsive-embed"; "wells"; "close";
    "modals"; "tooltip"; "popovers"; "carousel";
    "utilities"; "responsive-utilities"; "theme" ].

(** The override appended to the bundle. *)
Definition rowOverride : string :=
  JS.cat EOL (JS.cat "        .row * {" (JS.cat EOL
  (JS.cat "          box-sizing: border-box;" (JS.cat EOL
  (JS.cat "        }" (JS.cat EOL "      ")))))).

Section Build.

Context {FS : Type} `{FileSystem FS}.
Variable lib : Collaborators.
Variable this : Settings.

(** What an operation of [Build] can change: the files, the objects of
    the heap, and the lines written by [console.log]. *)
Record World := {
  fs : FS;
  heap : Heap;
  console : list string
}.

Definition withFs (w : World) (fs' : FS) : World :=
  {| fs := fs'; heap := heap w; console := console w |}.

Definition console_log (w : World) (line : string) : World :=
  {| fs := fs w; heap := heap w; console := console w ++ [line] |}.

Definition liftIO {A} (r : result errno A) : result error A :=
  match r with
  | Ok a => Ok a
  | Err e => Err (IOError e)
  end.

(** [fs.readFileSync(path, encoding)] where [path] may be [undefined]. *)
Definition readFileSync (f : FS) (path : option string) : result error string :=
  match path with
  | None => Err (TypeError "path must be a string or Buffer")
  | Some p => liftIO (readFile f p (settings_fileEncoding this))
  end.

(** [mkdirp.sync(path.dirname(p)); fs.writeFileSync(p, text, {encoding})]:
    the files that are reached, and whether an exception was thrown. *)
Definition writeUnder (f : FS) (p text : string) : FS * result error unit :=
  match mkdirp f (Path.dirname p) with
  | Err e => (f, Err (IOError e))
  | Ok f1 =>
      match writeFile f1 p text (settings_fileEncoding this) with
      | Err e => (f1, Err (IOError e))
      | Ok f2 => (f2, Ok tt)
      end
  end.

(** The content of one entry of [filesArr]; [bootstrap3] is the method
    called for the reserved entry. *)
Definition readEntry (bootstrap3 : World -> World * result error string)
    (w : World) (filePath : string) : World * result error string :=
  if String.eqb filePath "bootstrap3" then bootstrap3 w
  else (w, readFileSync (fs w) (Some filePath)).

(** The loop of [concatFilesContent]. *)
Fixpoint concatLoop (bootstrap3 : World -> World * result error string)
    (w : World) (filesArr : list string) (concatedContent : list string)
    : World * result error (list string) :=
  match filesArr with
  | [] => (w, Ok concatedContent)
  | filePath :: rest =>
      let '(w1, r) := readEntry bootstrap3 w filePath in
      match r with
      | Ok content =>
          concatLoop bootstrap3 w1 rest (concatedContent ++ [content])
      | Err e => (w1, Err e)
      end
  end.

Definition concatFilesContentWith
    (bootstrap3 : World -> World * result error string)
    (w : World) (params : IConcatFilesContent)
    : World * result error string :=
  let '(w1, r) :=
    concatLoop bootstrap3 w (default [] (filesArr params)) [] in
  match r with
  | Err e => (w1, Err e)
  | Ok concatedContent =>
      if JS.truthy (concat_distPath params) then
        let '(f2, written) :=
          writeUnder (fs w1) (default "" (concat_distPath params))
            (JS.join EOL concatedContent) in
        (withFs w1 f2,
         bind written (fun _ => Ok (JS.join EOL concatedContent)))
      else (w1, Ok (JS.join EOL concatedContent))
  end.

Definition bootstrapRoot : string :=
  Path.join [process_cwd lib; "/node_modules/bootstrap/less"].

Definition bootstrapPaths : list string :=
  List.map (fun fileName =>
              Path.join [bootstrapRoot; "/"; JS.cat fileName ".less"])
           bootstrapFiles.

(** [buildBootstrap3], given the method it calls on the component files.
    When [less] reports an error the promise is rejected with its message;
    what the rest of that callback does inside [less] is not modelled. *)
Definition buildBootstrap3With
    (concat : World -> IConcatFilesContent -> World * result error string)
    (w : World) : World * result error string :=
  if existsSync (fs w) bootstrapRoot then
    let '(w1, r) :=
      concat w {| filesArr := Some bootstrapPaths;
                  concat_distPath := None |} in
    match r with
    | Err e => (w1, Err e)
    | Ok content =>
        let content := JS.cat content rowOverride in
        match require_less lib with
        | None =>
            (console_log w1
               "`npm i -D less` is required to build Bootstrap 3",
             Ok "")
        | Some less_render =>
            match less_render content
                    (path_resolve (process_cwd lib)
                       (Path.join [bootstrapRoot; "/_.less"])) with
            | Err message =>
                (w1, Err (StylesheetCompileError
                            (JS.cat "Less compilation error:" message)))
            | Ok styles => (w1, Ok styles)
            end
        end
    end
  else (console_log w "No Bootstrap 3 installed found", Ok "").

(** None of [bootstrapPaths] is the reserved entry (see
    [bootstrapPaths_not_reserved]), so the call made by [buildBootstrap3]
    never comes back to it. *)
Definition neverCalled (w : World) : World * result error string :=
  (w, Err (TypeError "unreachable")).

(** [public async buildBootstrap3(): Promise<string>]. *)
Definition buildBootstrap3 (w : World) : World * result error string :=
  buildBootstrap3With (concatFilesContentWith neverCalled) w.

(** [public async concatFilesContent(params): Promise<string>]. *)
Definition concatFilesContent (w : World) (params : IConcatFilesContent)
    : World * result error string :=
  concatFilesContentWith buildBootstrap3 w params.

(** [public buildCustomCssFromScss(params = {}): Promise<sass.Result>].
    In [data || file ? read(file) : null] the condition is [data || file].
    The compiler is called from a timer, 50 ms later; the delay itself is
    not modelled. *)
Definition buildCustomCssFromScss (w : World)
    (params : IBuildCustomCssFromScss) : result error sass.Result :=
  let data' :=
    if JS.truthy (data params) || JS.truthy (file params) then
      bind (readFileSync (fs w) (file params)) (fun text => Ok (Some text))
    else Ok None in
  bind data' (fun data' =>
  let outputStyle' := orDefault (outputStyle params) "compressed" in
  sass_render lib
    {| sass.file := file params;
       sass.data := data';
       sass.outputStyle := outputStyle';
       sass.outFile := outFile params;
       sass.sourceMap := sourceMap params;
       sass.sourceMapContents := sourceMapContents params |}).

(** [content = content || fs.readFileSync(srcPath, encoding)]. *)
Definition minifyInput (w : World) (params : IMinifyContent)
    : result error string :=
  if JS.truthy (content params) then Ok (default "" (content params))
  else readFileSync (fs w) (srcPath params).

(** [if (distPath) { mkdirp.sync(...); fs.writeFileSync(distPath, text) }]. *)
Definition writeIfDistPath (w : World) (distPath : option string)
    (text : string) : World * result error unit :=
  if JS.truthy distPath then
    let '(f, written) := writeUnder (fs w) (default "" distPath) text in
    (withFs w f, written)
  else (w, Ok tt).

(** [public minifyJsContent(params): uglifyJS.MinifyOutput]. *)
Definition minifyJsContent (w : World) (params : IMinifyContent)
    : World * result error uglifyJS.MinifyOutput :=
  match bind (minifyInput w params) (uglifyJS_minify lib) with
  | Err e => (w, Err e)
  | Ok minifiedContent =>
      let '(w1, written) :=
        writeIfDistPath w (distPath params) (uglifyJS.code minifiedContent) in
      (w1, bind written (fun _ => Ok minifiedContent))
  end.

(** [public minifyCssContent(params): CleanCSS.Output]. *)
Definition minifyCssContent (w : World) (params : IMinifyContent)
    : World * result error CleanCSS.Output :=
  match bind (minifyInput w params) (CleanCSS_minify lib) with
  | Err e => (w, Err e)
  | Ok minifiedContent =>
      let '(w1, written) :=
        writeIfDistPath w (distPath params) (CleanCSS.styles minifiedContent) in
      (w1, bind written (fun _ => Ok minifiedContent))
  end.

(** The own properties that [{...data}] copies. *)
Definition spread (h : Heap) (data : option loc) : object :=
  match data with
  | Some l => default ∅ (h !! l)
  | None => ∅
  end.

(** [{...data, fileName: `${fileParse.name}${fileParse.ext}`}]. *)
Definition augmentedData (h : Heap) (data : option loc)
    (fileParse : Path.ParsedPath) : object :=
  <["fileName" :=
      VString (JS.cat (Path.name fileParse) (Path.ext fileParse))]>
    (spread h data).

(** The object literal is a new object; the local [data] is bound to it. *)
Definition newObject (w : World) (o : object) : World * loc :=
  let l := fresh (dom (heap w)) in
  ({| fs := fs w; heap := <[l := o]> (heap w); console := console w |}, l).

(** [public compileHbsTemplate(params): Promise<{targetBody, targetPath}>].
    The two callbacks are followed statement by statement: [reject] and
    [resolve] settle the promise and return, so the statements after them
    still run; an exception in a callback is not caught by anyone. *)
Definition compileHbsTemplate (w : World) (params : ICompileHbsTemplate)
    : World * outcome HbsResult :=
  let source := resolvePath (settings_src this) (source params) in
  let target := resolvePath (settings_dist this) (target params) in
  let fileParse := Path.parse target in
  let '(w1, data) :=
    newObject w (augmentedData (heap w) (hbs_data params) fileParse) in
  (* fs.readFile(source, encoding, (err, sourceBody) => ... *)
  let '(err, sourceBody) :=
    match readFile (fs w1) source (settings_fileEncoding this) with
    | Ok body => (None, Some body)
    | Err e => (Some (IOError e), None)
    end in
  (* if (err) { reject(err); } *)
  let p1 : settle HbsResult :=
    match err with
    | Some e => settleWith Pending (Rejected e)
    | None => Pending
    end in
  (* sourceBody.toString() *)
  match sourceBody with
  | None =>
      (w1, {| promise := p1;
              uncaught := Some (TypeError
                "Cannot read property 'toString' of undefined") |})
  | Some sourceBody =>
      let template := Handlebars_compile lib sourceBody in
      match template (heap w1) data with
      | Err e => (w1, {| promise := p1; uncaught := Some e |})
      | Ok targetBody =>
          match mkdirp (fs w1) (Path.dirname target) with
          | Err e => (w1, {| promise := p1; uncaught := Some (IOError e) |})
          | Ok f1 =>
              (* fs.writeFile(target, targetBody, {encoding}, (err) => ... *)
              let '(w2, err) :=
                match writeFile f1 target targetBody
                        (settings_fileEncoding this) with
                | Ok f2 => (withFs w1 f2, None)
                | Err e => (withFs w1 f1, Some (IOError e))
                end in
              (* if (err) { reject(err); } *)
              let p2 :=
                match err with
                | Some e => settleWith p1 (Rejected e)
                | None => p1
                end in
              (* resolve({ targetBody, targetPath: target }) *)
              let p3 :=
                settleWith p2
                  (Fulfilled {| targetBody := targetBody;
                                targetPath := target |}) in
              (w2, {| promise := p3; uncaught := None |})
          end
      end
  end.

(** The loop of [compileHbsTemplates]: each job is awaited before the next
    one starts. It returns the world, the local [results] as it stands
    when the loop is left, and the outcome. An exception that escaped from
    a callback ends the process; a rejected promise is thrown by [await]
    and rejects the batch; a promise that never settles never resumes it. *)
Fixpoint compileHbsLoop (w : World) (files : list HbsFile)
    (data : option loc) (results : list HbsResult)
    : World * list HbsResult * outcome (list HbsResult) :=
  match files with
  | [] => (w, results, {| promise := Fulfilled results; uncaught := None |})
  | file :: rest =>
      let '(w1, o) :=
        compileHbsTemplate w
          {| source := file_source file;
             target := file_target file;
             hbs_data := data |} in
      match uncaught o, promise o with
      | Some e, _ => (w1, results, {| promise := Pending; uncaught := Some e |})
      | None, Fulfilled result =>
          compileHbsLoop w1 rest data (results ++ [result])
      | None, Rejected e =>
          (w1, results, {| promise := Rejected e; uncaught := None |})
      | None, Pending =>
          (w1, results, {| promise := Pending; uncaught := None |})
      end
  end.

(** [public async compileHbsTemplates(params)]. *)
Definition compileHbsTemplates (w : World) (params : ICompileHbsTemplates)
    : World * outcome (list HbsResult) :=
  let '(w1, _, o) :=
    compileHbsLoop w (files params) (hbss_data params) [] in
  (w1, o).

End Build.

Arguments World FS : clear implicits.

(** ** [copyAssets] *)

(** [srcArrayOrPath] is one path or an array of paths. *)
Record ICopyAssets := {
  srcArrayOrPath : string + list string;
  copy_dist : string
}.

Section CopyAssets.

Context {FS : Type} `{FileSystem FS}.

(** [this.copy.copyFileOrFolderSync(src, dist)]. The class [Copy] of
    [./copy] is not among these sources, so its method is a parameter: the
    files it reaches, and whether it threw. *)
Variable copyFileOrFolderSync :
  FS -> string -> string -> FS * result error unit.

(** [srcArrayOrPath.forEach(src => ...)]: an exception leaves the loop. *)
Fixpoint copyEach (f : FS) (srcs : list string) (dist : string)
    : FS * result error unit :=
  match srcs with
  | [] => (f, Ok tt)
  | src :: rest =>
      let '(f1, r) := copyFileOrFolderSync f src dist in
      match r with
      | Ok _ => copyEach f1 rest dist
      | Err e => (f1, Err e)
      end
  end.

(** [public copyAssets(params): void]. *)
Definition copyAssets (w : World FS) (params : ICopyAssets)
    : World FS * result error unit :=
  match mkdirp (fs w) (copy_dist params) with
  | Err e => (w, Err (IOError e))
  | Ok f1 =>
      let '(f2, r) :=
        match srcArrayOrPath params with
        | inr srcs => copyEach f1 srcs (copy_dist params)
        | inl src => copyFileOrFolderSync f1 src (copy_dist params)
        end in
      (withFs w f2, r)
  end.

End CopyAssets.

(** ** A file system in memory *)

Module MemFS.

(** Files by path, the directories that exist, and the paths that may not
    be written. *)
Record t := {
  files : gmap string string;
  dirs : gset string;
  readonly : gset string
}.

Definition exists_ (f : t) (p : string) : bool :=
  bool_decide (is_Some (files f !! p)) || bool_decide (p ∈ dirs f).

Definition read (f : t) (p enc : string) : result errno string :=
  match files f !! p with
  | Some text => Ok text
  | None => Err "ENOENT"
  end.

Definition write (f : t) (p text enc : string) : result errno t :=
  if bool_decide (p ∈ readonly f) then Err "EACCES"
  else Ok {| files := <[p := text]> (files f);
             dirs := dirs f;
             readonly := readonly f |}.

Definition mkdir (f : t) (d : string) : result errno t :=
  if bool_decide (is_Some (files f !! d)) then Err "EEXIST"
  else Ok {| files := files f;
             dirs := {[d]} ∪ dirs f;
             readonly := readonly f |}.

Definition ofFiles (l : list (string * string)) : t :=
  {| files := list_to_map l; dirs := ∅; readonly := ∅ |}.

End MemFS.

#[export] Instance MemFS_FileSystem : FileSystem MemFS.t :=
  {| existsSync := MemFS.exists_;
     readFile := MemFS.read;
     writeFile := MemFS.write;
     mkdirp := MemFS.mkdir |}.

(** ** Stand-ins for the libraries, and two small sites *)

Module Fixture.

(** A template engine that puts the [fileName] of its context after the
    template, minifiers that return their input, a Sass compiler that
    returns its [data]; [less] is not installed. *)
Definition echo : Collaborators :=
  {| Handlebars_compile := fun body h l =>
       match h !! l with
       | Some o =>
           match o !! "fileName" with
           | Some (VString s) => Ok (JS.cat body s)
           | _ => Ok body
           end
       | None => Err (TemplateError "no context")
       end;
     uglifyJS_minify := fun text => Ok {| uglifyJS.code := text; uglifyJS.map := "" |};
     CleanCSS_minify := fun text => Ok {| CleanCSS.styles := text |};
     sass_render := fun o =>
       match sass.data o with
       | Some d => Ok {| sass.css := d; sass.map := None |}
       | None => Err (StylesheetCompileError "No input specified")
       end;
     require_less := None;
     process_cwd := "/work" |}.

(** The same with a [less] that rejects what it is given. *)
Definition brokenLess : Collaborators :=
  {| Handlebars_compile := Handlebars_compile echo;
     uglifyJS_minify := uglifyJS_minify echo;
     CleanCSS_minify := CleanCSS_minify echo;
     sass_render := sass_render echo;
     require_less := Some (fun _ _ => Err "boom");
     process_cwd := "/work" |}.

Definition build : Settings := Build defaultSettings.

(** The caller's data object, at location 1. *)
Definition callerData : object :=
  {[ "fileName" := VString "mine"; "title" := VString "Home" ]}.

Definition site : World MemFS.t :=
  {| fs := MemFS.ofFiles
             [ ("src/a.hbs", "Hello "); ("src/c.hbs", "Bye ");
               ("a.css", "A"); ("b.css", "B"); ("c.css", "C");
               ("a.js", "var x = 1;"); ("main.scss", "a{b:c}") ];
     heap := {[ 1%positive := callerData ]};
     console := [] |}.

(** A project in which Bootstrap 3 is installed. *)
Definition bootstrapSite : World MemFS.t :=
  {| fs := {| MemFS.files :=
                list_to_map
                  (List.map (fun p => (p, "")) (bootstrapPaths brokenLess));
              MemFS.dirs := {[ bootstrapRoot brokenLess ]};
              MemFS.readonly := ∅ |};
     heap := ∅;
     console := [] |}.

End Fixture.

(** ** More stand-ins and sites *)

Module Scenario.

(** A template engine that rejects every template. *)
Definition throwing : Collaborators :=
  {| Handlebars_compile := fun _ _ _ => Err (TemplateError "Parse error");
     uglifyJS_minify := uglifyJS_minify Fixture.echo;
     CleanCSS_minify := CleanCSS_minify Fixture.echo;
     sass_render := sass_render Fixture.echo;
     require_less := None;
     process_cwd := "/work" |}.

(** A [less] that returns the source it is given. *)
Definition workingLess : Collaborators :=
  {| Handlebars_compile := Handlebars_compile Fixture.echo;
     uglifyJS_minify := uglifyJS_minify Fixture.echo;
     CleanCSS_minify := CleanCSS_minify Fixture.echo;
     sass_render := sass_render Fixture.echo;
     require_less := Some (fun content _ => Ok content);
     process_cwd := "/work" |}.

(** The site of [Fixture.site] where [dist/pages/a.html] may not be
    written. *)
Definition lockedSite : World MemFS.t :=
  {| fs := {| MemFS.files := MemFS.files (fs Fixture.site);
              MemFS.dirs := ∅;
              MemFS.readonly := {[ "dist/pages/a.html" ]} |};
     heap := heap Fixture.site;
     console := [] |}.

(** The same site where [dist/pages] is a file. *)
Definition blockedSite : World MemFS.t :=
  {| fs := {| MemFS.files :=
                <["dist/pages" := "not a directory"]>
                  (MemFS.files (fs Fixture.site));
              MemFS.dirs := ∅;
              MemFS.readonly := ∅ |};
     heap := heap Fixture.site;
     console := [] |}.

(** Bootstrap's directory without its files. *)
Definition emptyBootstrapSite : World MemFS.t :=
  {| fs := {| MemFS.files := ∅;
              MemFS.dirs := {[ bootstrapRoot Fixture.echo ]};
              MemFS.readonly := ∅ |};
     heap := ∅;
     console := [] |}.

(** A copy of one file into a directory: [dist/<base name>]. *)
Definition copyFile (f : MemFS.t) (src dist : string)
    : MemFS.t * result error unit :=
  match MemFS.files f !! src with
  | None => (f, Err (IOError "ENOENT"))
  | Some text =>
      match MemFS.write f (Path.join [dist; Path.baseOf src]) text "utf-8"
      with
      | Ok f' => (f', Ok tt)
      | Err e => (f, Err (IOError e))
      end
  end.

Definition homePage : ICompileHbsTemplate :=
  {| source := "a.hbs"; target := "pages/a.html";
     hbs_data := Some 1%positive |}.

(** A template engine that puts the [title] and the [fileName] of its
    context after the template, and fails without them. *)
Definition titled : Collaborators :=
  {| Handlebars_compile := fun body h l =>
       match h !! l with
       | Some o =>
           match o !! "title", o !! "fileName" with
           | Some (VString t), Some (VString f) =>
               Ok (JS.cat body (JS.cat t (JS.cat " in " f)))
           | _, _ => Err (TemplateError "missing field")
           end
       | None => Err (TemplateError "no context")
       end;
     uglifyJS_minify := uglifyJS_minify Fixture.echo;
     CleanCSS_minify := CleanCSS_minify Fixture.echo;
     sass_render := sass_render Fixture.echo;
     require_less := None;
     process_cwd := "/work" |}.

(** The names of Bootstrap's component files, and a project in which each
    of them holds its own name. *)
Definition componentNames : list string :=
  [ "variables"; "mixins"; "print"; "glyphicons"; "code"; "grid"; "tables";
    "forms"; "buttons"; "component-animations"; "dropdowns"; "button-groups";
    "input-groups"; "navs"; "navbar"; "breadcrumbs"; "pagination"; "pager";
    "badges"; "jumbotron"; "thumbnails"; "alerts"; "progress-bars"; "media";
    "list-group"; "panels"; "responsive-embed"; "wells"; "close"; "modals";
    "tooltip"; "popovers"; "carousel"; "utilities"; "responsive-utilities";
    "theme" ].

Definition bootstrapTree : World MemFS.t :=
  {| fs := {| MemFS.files :=
                list_to_map
                  (List.map
                     (fun n =>
                        (String.append "/work/node_modules/bootstrap/less/"
                           (String.append n ".less"), n))
                     componentNames);
              MemFS.dirs := {[ "/work/node_modules/bootstrap/less" ]};
              MemFS.readonly := ∅ |};
     heap := ∅;
     console := [] |}.

(** A [less] that returns the file name and the source it is given, one
    above the other. *)
Definition tracingLess : Collaborators :=
  {| Handlebars_compile := Handlebars_compile Fixture.echo;
     uglifyJS_minify := uglifyJS_minify Fixture.echo;
     CleanCSS_minify := CleanCSS_minify Fixture.echo;
     sass_render := sass_render Fixture.echo;
     require_less :=
       Some (fun content filename =>
               Ok (String.append filename (String "010" content)));
     process_cwd := "/work" |}.

(** A job whose paths start with the characters of the roots. *)
Definition strayPage : ICompileHbsTemplate :=
  {| source := "src-other/x.hbs"; target := "distant/y.html";
     hbs_data := None |}.

End Scenario.

(** ** Vocabulary of the properties *)

(** A segment without separator. *)
Fixpoint noSlash (s : string) : bool :=
  match s with
  | EmptyString => true
  | String c r => negb (Path.isSlash c) && noSlash r
  end.

(** A segment that names a file or a directory. *)
Definition isName (s : string) : bool :=
  negb (String.eqb s "") && negb (String.eqb s ".")
  && negb (String.eqb s "..") && noSlash s.

Definition allDots (l : list string) : bool :=
  forallb (fun s => String.eqb s "..") l.

(** The outputs of [Path.normalizeSegments], last segment first: names
    above the [..] that could not be resolved, which are there only when
    going above the root is allowed. *)
Fixpoint stackOk (allow : bool) (res : list string) : bool :=
  match res with
  | [] => true
  | s :: r =>
      if String.eqb s ".." then allow && allDots r
      else isName s && stackOk allow r
  end.

(** A non-empty segment without separator. *)
Definition plain (s : string) : bool := negb (JS.isEmpty s) && noSlash s.

(** What [Path.normalize] puts around the normalized segments. *)
Definition assemble (isAbs trailing : bool) (l : list string) : string :=
  match l with
  | [] => if isAbs then "/" else if trailing then "./" else "."
  | _ =>
      let p'' := if trailing then JS.cat (JS.join "/" l) "/"
                 else JS.join "/" l in
      if isAbs then JS.cat "/" p'' else p''
  end.

(** [p] normalizes to a path that starts by going up with [..]. *)
Definition climbsAbove (p : string) : bool :=
  String.eqb (hd "" (Path.segments (Path.normalize p))) "..".

(** A root that paths can be put under: it normalizes to [/], or to a path
    that has a name and no trailing separator. *)
Definition plainRoot (root : string) : bool :=
  let r := Path.normalize root in
  String.eqb r "/"
  || (negb (Path.trailingSeparator r) && negb (String.eqb r ".")).

(** [a] is a prefix of [b], segment by segment. *)
Fixpoint segmentsPrefix (a b : list string) : bool :=
  match a, b with
  | [], _ => true
  | x :: a', y :: b' => String.eqb x y && segmentsPrefix a' b'
  | _ :: _, [] => false
  end.

(** [p] lies under [root] as a path: the segments of the normalized root
    are the first segments of the normalized [p]. *)
Definition liesUnder (root p : string) : bool :=
  segmentsPrefix (Path.segments (Path.normalize root))
                 (Path.segments (Path.normalize p)).

Definition isIOError (e : error) : Prop := exists errno, e = IOError errno.

Definition isStylesheetCompileError (e : error) : Prop :=
  exists msg, e = StylesheetCompileError msg.

(** A generator of content that writes no file and whose result depends
    on the files only. *)
Definition readsOnly {FS : Type}
    (boot : World FS -> World FS * result error string) : Prop :=
  (forall w, fs (fst (boot w)) = fs w)
  /\ (forall w w', fs w = fs w' -> snd (boot w) = snd (boot w')).




(** The path that [compileHbsTemplate] reads, the path it writes, and the
    heap in which it renders. *)
Definition hbsSource (this : Settings) (params : ICompileHbsTemplate)
    : string :=
  resolvePath (settings_src this) (source params).

Definition hbsTarget (this : Settings) (params : ICompileHbsTemplate)
    : string :=
  resolvePath (settings_dist this) (target params).

Definition hbsHeap (this : Settings) (h : Heap)
    (params : ICompileHbsTemplate) : Heap :=
  <[fresh (dom h) :=
      augmentedData h (hbs_data params) (Path.parse (hbsTarget this params))]>
    h.

(** The batch outcome with the results of earlier jobs put in front. *)
Definition afterResults (rs : list HbsResult)
    (o : outcome (list HbsResult)) : outcome (list HbsResult) :=
  {| promise := match promise o with
                | Fulfilled rs' => Fulfilled (rs ++ rs')
                | Rejected e => Rejected e
                | Pending => Pending
                end;
     uncaught := uncaught o |}.

(** * Properties *)

#[local] Arguments String.eqb : simpl never.
#[local] Arguments Ascii.eqb : simpl never.

(** ** Paths *)


Lemma indexOf_isnt_0_prefix s sub :
  JS.indexOf_isnt_0 s sub = negb (String.prefix sub s).
Proof.
  unfold JS.indexOf_isnt_0, JS.indexOf.
  destruct s as [|c s]; simpl.
  - destruct sub; reflexivity.
  - destruct sub as [|d sub]; [reflexivity|].
    destruct (ascii_dec d c) as [->|ne].
    + destruct (String.prefix sub s); [reflexivity|].
      destruct (String.index 0 (String c sub) s); reflexivity.
    + destruct (String.index 0 (String d sub) s); reflexivity.
Qed.

Lemma segments_cons p : exists s l, Path.segments p = s :: l.
Proof.
  induction p as [|c r [s [l E]]]; simpl; [eauto|].
  destruct (Path.isSlash c); [eauto|]. rewrite E. eauto.
Qed.

Lemma segments_app_slash a b :
  Path.segments (String.append a (String "/" b))
  = Path.segments a ++ Path.segments b.
Proof.
  induction a as [|c a IH]; simpl; [reflexivity|].
  destruct (Path.isSlash c); [now rewrite IH|].
  rewrite IH. destruct (segments_cons a) as [s [l ->]]. reflexivity.
Qed.

Lemma segments_noSlash s : noSlash s = true -> Path.segments s = [s].
Proof.
  induction s as [|c r IH]; simpl; [reflexivity|].
  intros [Hc Hr]%andb_prop. apply negb_true_iff in Hc. rewrite Hc, (IH Hr).
  reflexivity.
Qed.

Lemma segments_join l :
  l <> [] -> forallb noSlash l = true ->
  Path.segments (JS.join "/" l) = l.
Proof.
  induction l as [|x [|y l] IH]; intros Hne Hall; [congruence| |].
  - simpl in *. apply segments_noSlash. now destruct (noSlash x).
  - change (JS.join "/" (x :: y :: l))
      with (String.append x (String "/" (JS.join "/" (y :: l)))).
    rewrite segments_app_slash.
    simpl in Hall. apply andb_prop in Hall as [Hx Hr].
    rewrite (segments_noSlash _ Hx), IH; [reflexivity|congruence|exact Hr].
Qed.


Lemma stackOk_dots allow r :
  stackOk allow (".." :: r) = allow && allDots r.
Proof. reflexivity. Qed.

Lemma allDots_stackOk l : allDots l = true -> stackOk true l = true.
Proof.
  induction l as [|s r IH]; simpl; [reflexivity|].
  intros [Hs Hr]%andb_prop. apply String.eqb_eq in Hs. subst s. simpl.
  exact Hr.
Qed.

Lemma stackOk_tail allow s r :
  stackOk allow (s :: r) = true -> stackOk allow r = true.
Proof.
  simpl. destruct (String.eqb s "..").
  - intros [Ha Hr]%andb_prop. subst allow. now apply allDots_stackOk.
  - now intros [_ Hr]%andb_prop.
Qed.

Lemma isName_not_special s :
  isName s = true ->
  String.eqb s "" = false /\ String.eqb s "." = false
  /\ String.eqb s ".." = false /\ noSlash s = true.
Proof.
  unfold isName. intros H.
  repeat (apply andb_prop in H as [H ?]).
  repeat match goal with
         | X : negb _ = true |- _ => apply negb_true_iff in X
         end. auto.
Qed.

(** One step of [normalizeSegments] on a segment that is the top of a
    well-formed stack pushes it. *)
Lemma normalizeSegments_push allow s res rest :
  stackOk allow (s :: res) = true ->
  Path.normalizeSegments allow res (s :: rest)
  = Path.normalizeSegments allow (s :: res) rest.
Proof.
  intros Hok. simpl in *.
  destruct (String.eqb s "..") eqn:Hdd.
  - apply String.eqb_eq in Hdd. subst s. simpl.
    apply andb_prop in Hok as [-> Hr].
    destruct res as [|last res']; [reflexivity|].
    simpl in Hr. apply andb_prop in Hr as [Hl _].
    apply String.eqb_eq in Hl. subst last. reflexivity.
  - apply andb_prop in Hok as [Hn _].
    destruct (isName_not_special _ Hn) as (-> & -> & _ & _). reflexivity.
Qed.

Lemma normalizeSegments_replay allow S2 : forall S1 rest,
  stackOk allow (S2 ++ S1) = true ->
  Path.normalizeSegments allow S1 (rev S2 ++ rest)
  = Path.normalizeSegments allow (S2 ++ S1) rest.
Proof.
  induction S2 as [|s S2 IH]; intros S1 rest Hok; [reflexivity|].
  simpl rev. rewrite <- app_assoc. simpl.
  rewrite IH by (eapply stackOk_tail; exact Hok).
  now apply normalizeSegments_push.
Qed.

Lemma normalizeSegments_stack allow segs : forall res,
  stackOk allow res = true -> forallb noSlash segs = true ->
  exists S, Path.normalizeSegments allow res segs = rev S
            /\ stackOk allow S = true.
Proof.
  induction segs as [|seg rest IH]; intros res Hok Hns; simpl.
  - eauto.
  - simpl in Hns. apply andb_prop in Hns as [Hseg Hrest].
    destruct (String.eqb seg "" || String.eqb seg ".") eqn:Hskip; [eauto|].
    apply orb_false_elim in Hskip as [He Hd].
    destruct (String.eqb seg "..") eqn:Hdd.
    + destruct res as [|last res'].
      * apply IH; [|exact Hrest]. now destruct allow.
      * destruct (String.eqb last "..") eqn:Hl.
        -- apply IH; [|exact Hrest]. destruct allow; [|exact Hok].
           apply String.eqb_eq in Hl. subst last.
           rewrite stackOk_dots in *. simpl. exact Hok.
        -- apply IH; [|exact Hrest]. eapply stackOk_tail; exact Hok.
    + apply IH; [|exact Hrest]. simpl. rewrite Hdd.
      unfold isName. now rewrite He, Hd, Hdd, Hseg, Hok.
Qed.

Lemma segments_all_noSlash p : forallb noSlash (Path.segments p) = true.
Proof.
  induction p as [|c r IH]; simpl; [reflexivity|].
  destruct (Path.isSlash c) eqn:Hc; [exact IH|].
  destruct (Path.segments r) as [|s l]; simpl in *; [now rewrite Hc|].
  now rewrite Hc.
Qed.

Lemma stackOk_plain allow S : stackOk allow S = true -> forallb plain S = true.
Proof.
  induction S as [|s r IH]; intros Hok; [reflexivity|].
  simpl. rewrite IH by (eapply stackOk_tail; exact Hok).
  simpl in Hok. destruct (String.eqb s "..") eqn:Hdd.
  - apply String.eqb_eq in Hdd. subst s. reflexivity.
  - apply andb_prop in Hok as [Hn _].
    destruct (isName_not_special _ Hn) as (He & _ & _ & Hs).
    unfold plain. rewrite Hs. destruct s; [discriminate|reflexivity].
Qed.


Lemma plain_cons s : plain s = true ->
  exists c r, s = String c r /\ Path.isSlash c = false /\ noSlash r = true.
Proof.
  unfold plain. destruct s as [|c r]; [discriminate|]. simpl.
  intros [Hc Hr]%andb_prop. apply negb_true_iff in Hc. eauto.
Qed.

Lemma lastChar_noSlash s c :
  noSlash s = true -> JS.lastChar s = Some c -> Path.isSlash c = false.
Proof.
  induction s as [|d r IH]; [discriminate|]. simpl.
  intros [Hd Hr]%andb_prop. apply negb_true_iff in Hd.
  destruct r; [intros [= <-]; exact Hd|]. now apply IH.
Qed.

Lemma lastChar_some r : forall c,
  exists d, JS.lastChar (String c r) = Some d.
Proof.
  induction r as [|e r IH]; intros c; [now exists c|].
  destruct (IH e) as [d E]. exists d. exact E.
Qed.

Lemma lastChar_append a b :
  JS.lastChar (String.append a b)
  = match b with EmptyString => JS.lastChar a | _ => JS.lastChar b end.
Proof.
  induction a as [|c a IH]; simpl.
  - now destruct b.
  - rewrite IH. destruct a; simpl; destruct b; reflexivity.
Qed.

Lemma join_cons2 x y l :
  JS.join "/" (x :: y :: l)
  = String.append x (String "/" (JS.join "/" (y :: l))).
Proof. reflexivity. Qed.

Lemma join_head l : l <> [] -> forallb plain l = true ->
  exists c r, JS.join "/" l = String c r /\ Path.isSlash c = false.
Proof.
  destruct l as [|x l]; [congruence|]. intros _ Hall.
  simpl in Hall. apply andb_prop in Hall as [Hx _].
  destruct (plain_cons _ Hx) as (c & r & -> & Hc & _).
  destruct l; [simpl; eauto|]. rewrite join_cons2. simpl. eauto.
Qed.

Lemma join_last l : l <> [] -> forallb plain l = true ->
  exists c, JS.lastChar (JS.join "/" l) = Some c /\ Path.isSlash c = false.
Proof.
  induction l as [|x [|y l] IH]; [congruence| |]; intros _ Hall.
  - simpl in Hall. rewrite andb_true_r in Hall.
    destruct (plain_cons _ Hall) as (c & r & -> & Hc & Hr).
    change (JS.join "/" [String c r]) with (String c r).
    destruct (lastChar_some r c) as [d E]. rewrite E.
    exists d. split; [reflexivity|].
    eapply lastChar_noSlash; [|exact E]. simpl. now rewrite Hc, Hr.
  - rewrite join_cons2, lastChar_append.
    change (forallb plain (x :: y :: l))
      with (plain x && forallb plain (y :: l)) in Hall.
    apply andb_prop in Hall as [_ Hr].
    destruct IH as (c & E & Hc); [congruence|exact Hr|].
    exists c. split; [|exact Hc].
    destruct (join_head (y :: l)) as (c' & r' & EJ & _);
      [congruence|exact Hr|].
    rewrite EJ in *. exact E.
Qed.

Lemma segments_slash_tail a :
  Path.segments (String.append a "/") = Path.segments a ++ [""].
Proof. exact (segments_app_slash a ""). Qed.

Lemma plain_noSlash l : forallb plain l = true -> forallb noSlash l = true.
Proof.
  induction l as [|x l IH]; [reflexivity|]. simpl.
  intros [Hx Hl]%andb_prop. rewrite (IH Hl).
  unfold plain in Hx. apply andb_prop in Hx as [_ ->]. reflexivity.
Qed.

Lemma forallb_rev {A} (f : A -> bool) l :
  forallb f (rev l) = forallb f l.
Proof.
  induction l as [|x l IH]; [reflexivity|].
  simpl. rewrite forallb_app, IH. simpl. rewrite andb_true_r.
  apply andb_comm.
Qed.

Lemma append_cons c s t : String.append (String c s) t = String c (String.append s t).
Proof. reflexivity. Qed.

Lemma append_empty_r s : String.append s "" = s.
Proof.
  induction s as [|c s IH]; [reflexivity|]. now rewrite append_cons, IH.
Qed.

Lemma assemble_cons isAbs trailing x l :
  assemble isAbs trailing (x :: l)
  = String.append (if isAbs then "/" else "")
      (String.append (JS.join "/" (x :: l)) (if trailing then "/" else "")).
Proof.
  unfold assemble, JS.cat. generalize (JS.join "/" (x :: l)) as J. intros J.
  destruct isAbs, trailing; rewrite ?append_empty_r; reflexivity.
Qed.

Lemma normalize_assemble isAbs trailing S :
  stackOk (negb isAbs) S = true ->
  Path.normalize (assemble isAbs trailing (rev S))
  = assemble isAbs trailing (rev S).
Proof.
  intros Hok.
  destruct (rev S) as [|x l] eqn:HS.
  - destruct isAbs, trailing; reflexivity.
  - assert (Hne : x :: l <> []) by congruence.
    assert (Hplain : forallb plain (x :: l) = true).
    { rewrite <- HS, forallb_rev. eapply stackOk_plain; exact Hok. }
    destruct (join_head _ Hne Hplain) as (c & r & EJ & Hc).
    destruct (join_last _ Hne Hplain) as (d & EL & Hd).
    assert (Hsegs : Path.segments (JS.join "/" (x :: l)) = x :: l).
    { apply segments_join; [exact Hne|]. now apply plain_noSlash. }
    assert (Hin : forall rest, rest = [] \/ rest = [""] ->
               Path.normalizeSegments (negb isAbs) [] ((x :: l) ++ rest)
               = x :: l).
    { intros rest Hrest. rewrite <- HS at 1.
      rewrite (normalizeSegments_replay (negb isAbs) S [] rest);
        rewrite app_nil_r; [|exact Hok].
      destruct Hrest as [-> | ->]; exact HS. }
    pose proof (assemble_cons isAbs trailing x l) as Er0.
    remember (JS.join "/" (x :: l)) as J eqn:HJ.
    remember (assemble isAbs trailing (x :: l)) as r0 eqn:Hr0.
    assert (Hempty : JS.isEmpty r0 = false).
    { rewrite Er0, EJ. now destruct isAbs. }
    assert (Habs : Path.isAbsolute r0 = isAbs).
    { rewrite Er0, EJ. destruct isAbs; [reflexivity|].
      unfold Path.isAbsolute. exact Hc. }
    assert (Htrail : Path.trailingSeparator r0 = trailing).
    { rewrite Er0, EJ, append_cons. unfold Path.trailingSeparator.
      rewrite lastChar_append, <- append_cons, <- EJ.
      destruct trailing.
      - now rewrite lastChar_append.
      - now rewrite append_empty_r, EL. }
    assert (Hmid : Path.normalizeSegments (negb isAbs) []
              (Path.segments (String.append J (if trailing then "/" else "")))
            = x :: l).
    { destruct trailing.
      - rewrite segments_slash_tail, Hsegs. apply Hin. now right.
      - rewrite append_empty_r, Hsegs. rewrite <- (app_nil_r (x :: l)) at 1.
        apply Hin. now left. }
    assert (Hnorm : Path.normalizeSegments (negb isAbs) []
                      (Path.segments r0) = x :: l).
    { rewrite Er0. destruct isAbs; [|exact Hmid]. exact Hmid. }
    unfold Path.normalize. rewrite Hempty, Habs, Htrail.
    unfold Path.normalizeString. rewrite Hnorm, <- HJ.
    rewrite EJ at 1. cbn [JS.isEmpty]. rewrite Hr0.
    unfold assemble. rewrite <- HJ. reflexivity.
Qed.


Lemma join_isEmpty l : forallb plain l = true ->
  JS.isEmpty (JS.join "/" l) = match l with [] => true | _ => false end.
Proof.
  destruct l as [|x l]; [reflexivity|]. intros Hall.
  destruct (join_head (x :: l)) as (c & r & -> & _);
    [congruence|exact Hall|reflexivity].
Qed.

(** [Path.normalize] returns normalized segments put together by
    [assemble]. *)
Lemma normalize_spec p :
  exists isAbs trailing S,
    stackOk (negb isAbs) S = true
    /\ Path.normalize p = assemble isAbs trailing (rev S).
Proof.
  destruct p as [|c p].
  - exists false, false, []. split; reflexivity.
  - set (q := String c p).
    destruct (normalizeSegments_stack (negb (Path.isAbsolute q))
                (Path.segments q) [] eq_refl (segments_all_noSlash q))
      as (S & HS & Hok).
    exists (Path.isAbsolute q), (Path.trailingSeparator q), S.
    split; [exact Hok|].
    assert (Hplain : forallb plain (rev S) = true).
    { rewrite forallb_rev. eapply stackOk_plain; exact Hok. }
    unfold Path.normalize, Path.normalizeString.
    change (JS.isEmpty q) with false. cbv iota.
    rewrite HS, (join_isEmpty _ Hplain).
    unfold assemble. destruct (rev S); reflexivity.
Qed.

Lemma normalize_idempotent p :
  Path.normalize (Path.normalize p) = Path.normalize p.
Proof.
  destruct (normalize_spec p) as (isAbs & trailing & S & Hok & ->).
  now apply normalize_assemble.
Qed.

Lemma normalize_nonempty p : JS.isEmpty (Path.normalize p) = false.
Proof.
  destruct (normalize_spec p) as (isAbs & trailing & S & Hok & ->).
  destruct (rev S) as [|x l] eqn:HS.
  - destruct isAbs, trailing; reflexivity.
  - rewrite assemble_cons.
    destruct (join_head (x :: l)) as (c & r & -> & _); [congruence| |].
    + rewrite <- HS, forallb_rev. eapply stackOk_plain; exact Hok.
    + now destruct isAbs.
Qed.

Lemma join_normal args :
  Path.normalize (Path.join args) = Path.join args.
Proof.
  unfold Path.join. destruct (Path.joinArgs None args); [|reflexivity].
  apply normalize_idempotent.
Qed.

Lemma resolvePath_normal root p :
  Path.normalize (resolvePath root p) = resolvePath root p.
Proof.
  unfold resolvePath.
  destruct (JS.indexOf_isnt_0 _ _);
    [apply join_normal|apply normalize_idempotent].
Qed.

Lemma resolvePath_rooted root p :
  String.prefix (Path.normalize root) (Path.normalize p) = true ->
  resolvePath root p = Path.normalize p.
Proof.
  intros Hpre. unfold resolvePath.
  now rewrite indexOf_isnt_0_prefix, Hpre.
Qed.

(** A resolved path that starts with the normalized root is resolved to
    itself. *)
Lemma resolvePath_fixed root p :
  String.prefix (Path.normalize root) (resolvePath root p) = true ->
  resolvePath root (resolvePath root p) = resolvePath root p.
Proof.
  intros Hpre. rewrite resolvePath_rooted; rewrite resolvePath_normal; auto.
Qed.


Lemma normalizeSegments_snoc_name allow name A : forall res,
  isName name = true ->
  Path.normalizeSegments allow res (A ++ [name])
  = Path.normalizeSegments allow res A ++ [name].
Proof.
  induction A as [|seg A IH]; intros res Hn.
  - destruct (isName_not_special _ Hn) as (He & Hd & Hdd & _).
    simpl. now rewrite He, Hd, Hdd.
  - simpl.
    destruct (String.eqb seg "" || String.eqb seg "."); [now apply IH|].
    destruct (String.eqb seg ".."); [|now apply IH].
    destruct res as [|last res']; [now apply IH|].
    destruct (String.eqb last ".."); now apply IH.
Qed.

Lemma lastChar_join_snoc name L :
  JS.isEmpty name = false ->
  JS.lastChar (JS.join "/" (L ++ [name])) = JS.lastChar name.
Proof.
  intros Hne. induction L as [|x L IH]; [reflexivity|].
  destruct (L ++ [name]) as [|y l] eqn:E; [now destruct L|].
  change ((x :: L) ++ [name]) with (x :: (L ++ [name])). rewrite E.
  rewrite join_cons2, lastChar_append.
  destruct (JS.join "/" (y :: l)) as [|c r] eqn:EJ.
  - destruct name as [|a n]; [discriminate|].
    destruct (lastChar_some n a) as [d Hd]. rewrite Hd in IH. discriminate.
  - exact IH.
Qed.

Lemma isName_plain name : isName name = true -> plain name = true.
Proof.
  intros Hn. destruct (isName_not_special _ Hn) as (He & _ & _ & Hs).
  unfold plain. rewrite Hs. now destruct name.
Qed.

(** A path that ends with a separator and a proper name keeps that name at
    its end when it is normalized. *)
Lemma normalize_keeps_last X name :
  isName name = true ->
  JS.lastChar (Path.normalize (String.append X (String "/" name)))
  = JS.lastChar name.
Proof.
  intros Hn.
  pose proof (isName_plain _ Hn) as Hp.
  destruct (plain_cons _ Hp) as (c & r & -> & Hc & Hr).
  set (name := String c r) in *.
  set (q := String.append X (String "/" name)).
  assert (Hq : JS.isEmpty q = false) by (unfold q; now destruct X).
  assert (Hlast : JS.lastChar q = JS.lastChar name).
  { unfold q. now rewrite lastChar_append. }
  destruct (lastChar_some r c) as [d Hd]. fold name in Hd.
  assert (Hds : Path.isSlash d = false).
  { eapply lastChar_noSlash; [|exact Hd]. simpl. now rewrite Hc, Hr. }
  assert (Htrail : Path.trailingSeparator q = false).
  { unfold Path.trailingSeparator. now rewrite Hlast, Hd. }
  assert (Hsegs : Path.segments q = Path.segments X ++ [name]).
  { unfold q. rewrite segments_app_slash, (segments_noSlash name);
      [reflexivity|]. simpl. now rewrite Hc, Hr. }
  unfold Path.normalize. rewrite Hq, Htrail.
  unfold Path.normalizeString. rewrite Hsegs.
  rewrite normalizeSegments_snoc_name by exact Hn.
  set (L := Path.normalizeSegments _ _ _).
  pose proof (lastChar_join_snoc name L eq_refl) as HJ.
  destruct (JS.join "/" (L ++ [name])) as [|c' r'] eqn:EJ.
  - rewrite Hd in HJ. discriminate.
  - cbn [JS.isEmpty]. destruct (Path.isAbsolute q); [|exact HJ].
    unfold JS.cat. now rewrite lastChar_append.
Qed.

Lemma joinArgs_last_name j root name :
  JS.isEmpty name = false ->
  exists X, Path.joinArgs j [root; "/"; name]
            = Some (String.append X (String "/" name)).
Proof.
  intros Hne. unfold Path.joinArgs. rewrite Hne. cbn [JS.isEmpty].
  unfold JS.cat.
  destruct (JS.isEmpty root); destruct j; eauto.
Qed.

Lemma bootstrapFiles_names :
  forallb (fun f => isName (JS.cat f ".less")) bootstrapFiles = true.
Proof. vm_compute. reflexivity. Qed.

Lemma bootstrapPaths_not_reserved lib p :
  In p (bootstrapPaths lib) -> p <> "bootstrap3".
Proof.
  unfold bootstrapPaths. intros (f & <- & Hin)%in_map_iff Heq.
  pose proof bootstrapFiles_names as Hall.
  rewrite forallb_forall in Hall. specialize (Hall f Hin).
  destruct (joinArgs_last_name None (bootstrapRoot lib) (JS.cat f ".less"))
    as [X HX].
  { apply isName_plain in Hall. unfold plain in Hall.
    apply andb_prop in Hall as [Hall _]. now apply negb_true_iff in Hall. }
  unfold Path.join in Heq. rewrite HX in Heq.
  apply (f_equal JS.lastChar) in Heq.
  rewrite normalize_keeps_last in Heq by exact Hall.
  unfold JS.cat in Heq. rewrite lastChar_append in Heq.
  discriminate Heq.
Qed.


Lemma append_assoc a b c :
  String.append (String.append a b) c = String.append a (String.append b c).
Proof.
  induction a as [|x a IH]; [reflexivity|]. now rewrite !append_cons, IH.
Qed.

Lemma prefix_append a b : String.prefix a (String.append a b) = true.
Proof.
  induction a as [|x a IH]; [now destruct b|]. rewrite append_cons. simpl.
  destruct (ascii_dec x x); [exact IH|congruence].
Qed.

Lemma join_app L1 L2 : L1 <> [] ->
  JS.join "/" (L1 ++ L2)
  = String.append (JS.join "/" L1)
      (match L2 with [] => "" | _ => String "/" (JS.join "/" L2) end).
Proof.
  induction L1 as [|x [|y L1] IH]; intros Hne; [congruence| |].
  - destruct L2; [now rewrite append_empty_r|]. reflexivity.
  - change ((x :: y :: L1) ++ L2) with (x :: y :: (L1 ++ L2)).
    rewrite !join_cons2. change (y :: L1 ++ L2) with ((y :: L1) ++ L2).
    rewrite IH by congruence. rewrite append_assoc, append_cons.
    reflexivity.
Qed.

Lemma assemble_segments isAbs trailing x l :
  forallb plain (x :: l) = true ->
  Path.segments (assemble isAbs trailing (x :: l))
  = (if isAbs then [""] else []) ++ (x :: l)
    ++ (if trailing then [""] else []).
Proof.
  intros Hp. rewrite assemble_cons.
  assert (Hs : Path.segments (JS.join "/" (x :: l)) = x :: l).
  { apply segments_join; [congruence|now apply plain_noSlash]. }
  assert (Hm : Path.segments (String.append (JS.join "/" (x :: l))
                                (if trailing then "/" else ""))
               = (x :: l) ++ (if trailing then [""] else [])).
  { destruct trailing.
    - now rewrite segments_slash_tail, Hs.
    - now rewrite append_empty_r, Hs, app_nil_r. }
  destruct isAbs; [|exact Hm].
  change (String.append "/" ?t) with (String "/" t).
  cbn [Path.segments]. change (Path.isSlash "/") with true. cbv iota.
  now rewrite Hm.
Qed.

Lemma assemble_isEmpty isAbs trailing L :
  forallb plain L = true -> JS.isEmpty (assemble isAbs trailing L) = false.
Proof.
  intros Hp. destruct L as [|x l]; [now destruct isAbs, trailing|].
  rewrite assemble_cons.
  destruct (join_head (x :: l)) as (c & r & -> & _); [congruence|exact Hp|].
  now destruct isAbs.
Qed.

Lemma assemble_isAbsolute isAbs trailing L :
  forallb plain L = true ->
  Path.isAbsolute (assemble isAbs trailing L) = isAbs.
Proof.
  intros Hp. destruct L as [|x l]; [now destruct isAbs, trailing|].
  rewrite assemble_cons.
  destruct (join_head (x :: l)) as (c & r & -> & Hc); [congruence|exact Hp|].
  destruct isAbs; [reflexivity|]. exact Hc.
Qed.

Lemma normalizeSegments_skip_empty allow res rest :
  Path.normalizeSegments allow res ("" :: rest)
  = Path.normalizeSegments allow res rest.
Proof. reflexivity. Qed.

(** Running [normalizeSegments] over the segments of a normalized path
    pushes its segments. *)
Lemma normalizeSegments_assemble allow isAbs trailing S2 S1 rest :
  stackOk allow (S2 ++ S1) = true ->
  Path.normalizeSegments allow S1
    (Path.segments (assemble isAbs trailing (rev S2)) ++ rest)
  = Path.normalizeSegments allow (S2 ++ S1) rest.
Proof.
  intros Hok.
  assert (Hp2 : forallb plain (rev S2) = true).
  { rewrite forallb_rev. apply stackOk_plain in Hok.
    rewrite forallb_app in Hok. now apply andb_prop in Hok as [-> _]. }
  destruct (rev S2) as [|x l] eqn:HS.
  - assert (S2 = []) as ->.
    { destruct S2 as [|s S2]; [reflexivity|]. simpl in HS.
      now destruct (rev S2). }
    destruct isAbs, trailing; reflexivity.
  - rewrite (assemble_segments _ _ _ _ Hp2), <- HS.
    assert (Hcore : forall rest',
      Path.normalizeSegments allow S1 (rev S2 ++ rest')
      = Path.normalizeSegments allow (S2 ++ S1) rest').
    { intros rest'. now apply normalizeSegments_replay. }
    rewrite <- !app_assoc.
    destruct isAbs; cbn [app]; rewrite ?normalizeSegments_skip_empty;
      rewrite Hcore; destruct trailing; reflexivity.
Qed.

Lemma stackOk_names_app allow SP SR :
  forallb isName SP = true -> stackOk allow SR = true ->
  stackOk allow (SP ++ SR) = true.
Proof.
  induction SP as [|s SP IH]; intros Hn Hok; [exact Hok|].
  simpl in Hn. apply andb_prop in Hn as [Hs Hn].
  cbn [app stackOk].
  destruct (isName_not_special _ Hs) as (_ & _ & -> & _).
  now rewrite Hs, IH.
Qed.

Lemma stackOk_false_names S :
  stackOk false S = true -> forallb isName S = true.
Proof.
  induction S as [|s S IH]; [reflexivity|]. cbn [stackOk forallb].
  destruct (String.eqb s ".."); [discriminate|].
  intros [-> Hr]%andb_prop. now apply IH.
Qed.

Lemma stackOk_bottom_names allow S x l :
  stackOk allow S = true -> rev S = x :: l -> String.eqb x ".." = false ->
  forallb isName S = true.
Proof.
  revert x l. induction S as [|s S IH]; intros x l Hok HS Hx; [reflexivity|].
  cbn [stackOk forallb] in *.
  destruct (String.eqb s "..") eqn:Hs.
  - exfalso. apply andb_prop in Hok as [_ Hd].
    apply String.eqb_eq in Hs. subst s.
    assert (Hall : forallb (fun s => String.eqb s "..") (rev (".." :: S))
                   = true).
    { rewrite forallb_rev. cbn [forallb]. exact Hd. }
    rewrite HS in Hall. cbn [forallb] in Hall.
    rewrite Hx in Hall. discriminate.
  - apply andb_prop in Hok as [-> Hok]. cbn [andb].
    destruct S as [|s' S']; [reflexivity|].
    simpl in HS.
    destruct (rev S' ++ [s']) as [|y l'] eqn:E; [now destruct (rev S')|].
    simpl in HS. injection HS as <- <-.
    eapply IH; [exact Hok| |exact Hx]. simpl. exact E.
Qed.


Lemma normalize_unfold q :
  JS.isEmpty q = false ->
  exists S,
    Path.normalizeSegments (negb (Path.isAbsolute q)) [] (Path.segments q)
    = rev S
    /\ stackOk (negb (Path.isAbsolute q)) S = true
    /\ Path.normalize q
       = assemble (Path.isAbsolute q) (Path.trailingSeparator q) (rev S).
Proof.
  intros Hq.
  destruct (normalizeSegments_stack (negb (Path.isAbsolute q))
              (Path.segments q) [] eq_refl (segments_all_noSlash q))
    as (S & HS & Hok).
  exists S. split; [exact HS|]. split; [exact Hok|].
  assert (Hplain : forallb plain (rev S) = true).
  { rewrite forallb_rev. eapply stackOk_plain; exact Hok. }
  unfold Path.normalize, Path.normalizeString.
  rewrite Hq, HS, (join_isEmpty _ Hplain).
  unfold assemble. destruct (rev S); reflexivity.
Qed.

Lemma isAbsolute_append a b :
  JS.isEmpty a = false ->
  Path.isAbsolute (String.append a b) = Path.isAbsolute a.
Proof. destruct a; [discriminate|reflexivity]. Qed.

Lemma rev_nil_inv {A} (l : list A) : rev l = [] -> l = [].
Proof.
  destruct l as [|x l]; [reflexivity|]. simpl.
  now destruct (rev l).
Qed.

Lemma prefix_slash s : String.prefix "/" (String "/" s) = true.
Proof. simpl. now destruct s. Qed.

Lemma assemble_trailing_true isAbs x l :
  Path.trailingSeparator (assemble isAbs true (x :: l)) = true.
Proof.
  rewrite assemble_cons. unfold Path.trailingSeparator.
  destruct (JS.join "/" (x :: l)) as [|c t].
  - now destruct isAbs.
  - rewrite lastChar_append, append_cons. cbv iota.
    rewrite <- append_cons, lastChar_append. reflexivity.
Qed.

Lemma assemble_not_slash isAbs trailing x l :
  forallb plain (x :: l) = true ->
  String.eqb (assemble isAbs trailing (x :: l)) "/" = false.
Proof.
  intros Hp. rewrite assemble_cons.
  destruct (join_head (x :: l)) as (c & t & -> & Hc); [congruence|exact Hp|].
  apply String.eqb_neq. intros E.
  destruct isAbs.
  - change (String "/" (String.append (String c t)
                          (if trailing then "/" else "")) = "/") in E.
    rewrite append_cons in E. discriminate E.
  - change (String.append (String c t) (if trailing then "/" else "") = "/")
      in E.
    rewrite append_cons in E. injection E as -> _. discriminate Hc.
Qed.

Lemma climbsAbove_names isAbs trailing S :
  stackOk (negb isAbs) S = true ->
  String.eqb (hd "" (Path.segments (assemble isAbs trailing (rev S)))) ".."
  = false ->
  forallb isName S = true.
Proof.
  intros Hok Hhd. destruct isAbs; [now apply stackOk_false_names|].
  destruct (rev S) as [|x l] eqn:HS.
  - now rewrite (rev_nil_inv _ HS).
  - rewrite assemble_segments in Hhd.
    + eapply stackOk_bottom_names; [exact Hok|exact HS|exact Hhd].
    + rewrite <- HS, forallb_rev. eapply stackOk_plain; exact Hok.
Qed.

(** Joining a path that does not climb under a plain root gives a path
    that starts with the root. *)
Lemma join_under_root root p :
  plainRoot root = true -> climbsAbove p = false ->
  String.prefix (Path.normalize root)
    (Path.join [Path.normalize root; Path.normalize p]) = true.
Proof.
  unfold plainRoot, climbsAbove. intros Hroot Hclimb.
  pose proof (normalize_nonempty root) as HneR.
  pose proof (normalize_nonempty p) as HneP.
  destruct (normalize_spec root) as (absR & trailR & SR & HokR & ER).
  destruct (normalize_spec p) as (absP & trailP & SP & HokP & EP).
  rewrite EP in Hclimb.
  pose proof (climbsAbove_names _ _ _ HokP Hclimb) as Hnames.
  assert (HplainR : forallb plain (rev SR) = true).
  { rewrite forallb_rev. eapply stackOk_plain; exact HokR. }
  set (r := Path.normalize root) in *.
  set (np := Path.normalize p) in *.
  unfold Path.join, Path.joinArgs. rewrite HneR, HneP. unfold JS.cat.
  change (String.append "/" np) with (String "/" np).
  set (q := String.append r (String "/" np)).
  assert (Hq : JS.isEmpty q = false).
  { unfold q. destruct r; [discriminate|reflexivity]. }
  assert (Habs : Path.isAbsolute q = absR).
  { unfold q. rewrite isAbsolute_append by exact HneR.
    rewrite ER. now apply assemble_isAbsolute. }
  destruct (normalize_unfold q Hq) as (S & HS & _ & ->).
  rewrite Habs in *.
  assert (HokA : stackOk (negb absR) (SP ++ SR) = true)
    by now apply stackOk_names_app.
  assert (HS' : rev S = rev SR ++ rev SP).
  { rewrite <- HS. unfold q. rewrite segments_app_slash, ER, EP.
    rewrite normalizeSegments_assemble by (now rewrite app_nil_r).
    rewrite app_nil_r, <- (app_nil_r (Path.segments _)).
    rewrite normalizeSegments_assemble by exact HokA.
    cbn [Path.normalizeSegments]. apply rev_app_distr. }
  rewrite HS'. clear HS HS' S.
  set (tP := Path.trailingSeparator q). clearbody tP.
  rewrite ER in Hroot |- *.
  destruct (rev SR) as [|x l] eqn:HSR.
  - cbn [app]. destruct absR.
    + destruct (rev SP) as [|y l'] eqn:HSP; [reflexivity|].
      rewrite assemble_cons. destruct trailR; exact (prefix_slash _).
    + destruct trailR; discriminate Hroot.
  - destruct trailR.
    + rewrite assemble_trailing_true, assemble_not_slash in Hroot
        by exact HplainR.
      discriminate Hroot.
    + change ((x :: l) ++ rev SP) with (x :: (l ++ rev SP)).
      rewrite !assemble_cons.
      change (x :: l ++ rev SP) with ((x :: l) ++ rev SP).
      rewrite join_app by congruence.
      rewrite append_empty_r, !append_assoc, <- append_assoc.
      apply prefix_append.
Qed.

Lemma resolvePath_under_root root p :
  plainRoot root = true -> climbsAbove p = false ->
  String.prefix (Path.normalize root) (resolvePath root p) = true.
Proof.
  intros Hroot Hclimb. unfold resolvePath.
  rewrite indexOf_isnt_0_prefix.
  destruct (String.prefix (Path.normalize root) (Path.normalize p)) eqn:E;
    [exact E|].
  now apply join_under_root.
Qed.

(** C1 (amended). Resolving a resolved path returns it unchanged whenever
    the resolved path starts with the normalized root. That is so for every
    path whose normalized form does not start with a [..] segment, when the
    root normalizes to [/] or to a path without trailing separator other
    than [.]. *)
Theorem resolvePath_idempotent_when_rooted root p :
  String.prefix (Path.normalize root) (resolvePath root p) = true
  \/ (plainRoot root = true /\ climbsAbove p = false) ->
  resolvePath root (resolvePath root p) = resolvePath root p.
Proof.
  intros [Hpre|[Hroot Hclimb]]; apply resolvePath_fixed;
    [exact Hpre|now apply resolvePath_under_root].
Qed.

(** C2. A candidate whose normalized form starts with the normalized root,
    character by character, is returned as normalized and is not joined
    under the root, whether or not it lies under the root as a path; a
    candidate that is in normalized form is returned as it is. *)
Theorem resolvePath_prefix_test root p :
  String.prefix (Path.normalize root) (Path.normalize p) = true ->
  resolvePath root p = Path.normalize p
  /\ (Path.normalize p = p -> resolvePath root p = p).
Proof.
  intros Hpre.
  assert (Hres : resolvePath root p = Path.normalize p).
  { unfold resolvePath. rewrite indexOf_isnt_0_prefix, Hpre. reflexivity. }
  split; [exact Hres|]. intros Hnormal. now rewrite Hres.
Qed.

(** ** Concatenation and the Bootstrap bundle *)

Section ConcatFacts.

Context {FS : Type} `{FileSystem FS}.
Variable lib : Collaborators.
Variable this : Settings.

Lemma readEntry_literal boot (w : World FS) p :
  p <> "bootstrap3" ->
  readEntry this boot w p = (w, readFileSync this (fs w) (Some p)).
Proof.
  intros Hp. unfold readEntry.
  destruct (String.eqb p "bootstrap3") eqn:E; [|reflexivity].
  now apply String.eqb_eq in E.
Qed.

Lemma concatLoop_no_token b1 b2 files : forall (w : World FS) acc,
  (forall p, In p files -> p <> "bootstrap3") ->
  concatLoop this b1 w files acc = concatLoop this b2 w files acc.
Proof.
  induction files as [|p files IH]; intros w acc Hno; [reflexivity|].
  cbn [concatLoop].
  rewrite !readEntry_literal by (apply Hno; now left).
  destruct (readFileSync this (fs w) (Some p)); [|reflexivity].
  apply IH. intros q Hq. apply Hno. now right.
Qed.

(** The method [buildBootstrap3] calls is [concatFilesContent] itself. *)
Lemma buildBootstrap3_unfold (w : World FS) :
  buildBootstrap3 lib this w
  = buildBootstrap3With lib (concatFilesContent lib this) w.
Proof.
  unfold buildBootstrap3, buildBootstrap3With, concatFilesContent.
  destruct (existsSync (fs w) (bootstrapRoot lib)); [|reflexivity].
  unfold concatFilesContentWith.
  change (default [] (filesArr _)) with (bootstrapPaths lib).
  rewrite (concatLoop_no_token neverCalled (buildBootstrap3 lib this));
    [reflexivity|].
  apply bootstrapPaths_not_reserved.
Qed.

Lemma readEntry_fs boot (w : World FS) p :
  readsOnly boot -> fs (fst (readEntry this boot w p)) = fs w.
Proof.
  intros [Hfs _]. unfold readEntry.
  destruct (String.eqb p "bootstrap3"); [apply Hfs|reflexivity].
Qed.

Lemma readEntry_snd boot (w w' : World FS) p :
  readsOnly boot -> fs w = fs w' ->
  snd (readEntry this boot w p) = snd (readEntry this boot w' p).
Proof.
  intros [_ Hdep] Hw. unfold readEntry.
  destruct (String.eqb p "bootstrap3"); [now apply Hdep|].
  cbn [snd]. now rewrite Hw.
Qed.

Lemma concatLoop_fs boot files : forall (w : World FS) acc,
  readsOnly boot -> fs (fst (concatLoop this boot w files acc)) = fs w.
Proof.
  induction files as [|p files IH]; intros w acc Hb; [reflexivity|].
  cbn [concatLoop].
  pose proof (readEntry_fs boot w p Hb) as Hw.
  destruct (readEntry this boot w p) as [w1 [c|e]]; cbn [fst] in *.
  - now rewrite IH.
  - exact Hw.
Qed.

Lemma concatLoop_snd boot files : forall (w w' : World FS) acc,
  readsOnly boot -> fs w = fs w' ->
  snd (concatLoop this boot w files acc)
  = snd (concatLoop this boot w' files acc).
Proof.
  induction files as [|p files IH]; intros w w' acc Hb Hw; [reflexivity|].
  cbn [concatLoop].
  pose proof (readEntry_fs boot w p Hb) as H1.
  pose proof (readEntry_fs boot w' p Hb) as H2.
  pose proof (readEntry_snd boot w w' p Hb Hw) as H3.
  destruct (readEntry this boot w p) as [w1 r1];
    destruct (readEntry this boot w' p) as [w2 r2]; cbn [fst snd] in *.
  subst r2. destruct r1; [|reflexivity].
  apply IH; [exact Hb|congruence].
Qed.

(** Entries that all have a content are collected in order. *)
Lemma concatLoop_contents boot entries contents :
  readsOnly boot ->
  forall (w : World FS) acc,
  Forall2 (fun e c => snd (readEntry this boot w e) = Ok c)
          entries contents ->
  snd (concatLoop this boot w entries acc) = Ok (acc ++ contents).
Proof.
  intros Hb w acc Hall. revert acc.
  induction Hall as [|e c entries contents He Hall IH]; intros acc.
  - cbn. now rewrite app_nil_r.
  - cbn [concatLoop].
    pose proof (readEntry_fs boot w e Hb) as Hw.
    destruct (readEntry this boot w e) as [w1 r]; cbn [fst snd] in *.
    subst r.
    rewrite (concatLoop_snd boot entries w1 w _ Hb Hw), IH.
    now rewrite <- app_assoc.
Qed.

(** The loop stops at the first entry without content. *)
Lemma concatLoop_fails boot pre bad post e0 :
  readsOnly boot ->
  forall (w : World FS) acc,
  snd (readEntry this boot w bad) = Err e0 ->
  exists e,
    snd (concatLoop this boot w (pre ++ bad :: post) acc) = Err e
    /\ (e = e0 \/ exists x, In x pre /\ snd (readEntry this boot w x) = Err e)
    /\ (Forall (fun x => isOk (snd (readEntry this boot w x)) = true) pre
        -> e = e0).
Proof.
  intros Hb w acc Hbad. revert acc.
  induction pre as [|x pre IH]; intros acc.
  - cbn [app concatLoop].
    destruct (readEntry this boot w bad) as [w1 r]; cbn [snd] in *.
    subst r. exists e0. cbn. auto.
  - cbn [app concatLoop].
    pose proof (readEntry_fs boot w x Hb) as Hw.
    destruct (readEntry this boot w x) as [w1 [c|e]] eqn:Ex; cbn [fst] in *.
    + destruct (IH (acc ++ [c])) as (e & He & Hor & Hall).
      exists e. rewrite (concatLoop_snd boot _ w1 w _ Hb Hw).
      split; [exact He|]. split.
      * destruct Hor as [->|(y & Hy & Ey)]; [now left|].
        right. exists y. split; [now right|exact Ey].
      * intros Hok. apply Hall. now inversion Hok.
    + exists e. split; [reflexivity|]. split.
      * right. exists x. split; [now left|]. now rewrite Ex.
      * intros Hok. inversion Hok as [|? ? Hx _]; subst.
        rewrite Ex in Hx. discriminate.
Qed.

Lemma neverCalled_readsOnly : readsOnly (neverCalled (FS := FS)).
Proof. split; reflexivity. Qed.

Lemma concatLoop_literal_error boot files : forall (w : World FS) acc e,
  (forall p, In p files -> p <> "bootstrap3") ->
  snd (concatLoop this boot w files acc) = Err e -> isIOError e.
Proof.
  induction files as [|p files IH]; intros w acc e Hno; [discriminate|].
  cbn [concatLoop]. rewrite readEntry_literal by (apply Hno; now left).
  unfold readFileSync, liftIO.
  destruct (readFile (fs w) p (settings_fileEncoding this)) as [c|no].
  - apply IH. intros q Hq. apply Hno. now right.
  - intros [= <-]. now exists no.
Qed.

Lemma concatFilesContentWith_nodist boot (w : World FS) files :
  concatFilesContentWith this boot w
    {| filesArr := Some files; concat_distPath := None |}
  = (fst (concatLoop this boot w files []),
     bind (snd (concatLoop this boot w files []))
          (fun cs => Ok (JS.join EOL cs))).
Proof.
  unfold concatFilesContentWith.
  change (default [] (filesArr _)) with files.
  destruct (concatLoop this boot w files []) as [w1 [cs|e]]; reflexivity.
Qed.

Ltac destruct_render :=
  match goal with
  | |- context [match ?render ?a ?b with Ok _ => _ | Err _ => _ end] =>
      destruct (render a b)
  end.

Lemma buildBootstrap3_readsOnly : readsOnly (buildBootstrap3 lib this).
Proof.
  split.
  - intros w. unfold buildBootstrap3, buildBootstrap3With.
    destruct (existsSync (fs w) (bootstrapRoot lib)); [|reflexivity].
    rewrite concatFilesContentWith_nodist.
    pose proof (concatLoop_fs neverCalled (bootstrapPaths lib) w []
                  neverCalled_readsOnly) as Hw.
    destruct (concatLoop this neverCalled w (bootstrapPaths lib) [])
      as [w1 [cs|e]]; cbn [fst snd bind] in *; [|exact Hw].
    destruct (require_less lib) as [render|]; [|exact Hw].
    destruct_render; exact Hw.
  - intros w w' Hw. unfold buildBootstrap3, buildBootstrap3With.
    rewrite <- Hw.
    destruct (existsSync (fs w) (bootstrapRoot lib)); [|reflexivity].
    rewrite !concatFilesContentWith_nodist.
    pose proof (concatLoop_snd neverCalled (bootstrapPaths lib) w w' []
                  neverCalled_readsOnly Hw) as Hs.
    destruct (concatLoop this neverCalled w (bootstrapPaths lib) [])
      as [w1 r1];
    destruct (concatLoop this neverCalled w' (bootstrapPaths lib) [])
      as [w2 r2]; cbn [fst snd bind] in *.
    subst r2. destruct r1 as [cs|e]; [|reflexivity].
    cbn [bind].
    destruct (require_less lib) as [render|]; [|reflexivity].
    destruct_render; reflexivity.
Qed.

Lemma buildBootstrap3_error (w : World FS) e :
  snd (buildBootstrap3 lib this w) = Err e ->
  isIOError e \/ isStylesheetCompileError e.
Proof.
  unfold buildBootstrap3, buildBootstrap3With.
  destruct (existsSync (fs w) (bootstrapRoot lib)); [|discriminate].
  rewrite concatFilesContentWith_nodist.
  pose proof (concatLoop_literal_error neverCalled (bootstrapPaths lib) w [])
    as Hlit.
  destruct (concatLoop this neverCalled w (bootstrapPaths lib) [])
    as [w1 [cs|e1]]; cbn [fst snd bind] in *.
  - destruct (require_less lib) as [render|]; [|discriminate].
    destruct_render; [discriminate|].
    intros [= <-]. right. eexists. reflexivity.
  - intros [= <-]. left. apply Hlit; [|reflexivity].
    apply bootstrapPaths_not_reserved.
Qed.

Lemma readEntry_error (w : World FS) x e :
  snd (readEntry this (buildBootstrap3 lib this) w x) = Err e ->
  isIOError e \/ (x = "bootstrap3" /\ isStylesheetCompileError e).
Proof.
  unfold readEntry. destruct (String.eqb x "bootstrap3") eqn:E.
  - apply String.eqb_eq in E. intros He.
    destruct (buildBootstrap3_error w e He); auto.
  - cbn [snd]. unfold readFileSync, liftIO.
    destruct (readFile _ _ _); [discriminate|].
    intros [= <-]. left. eexists. reflexivity.
Qed.

(** C5 (amended). A request with a literal path that cannot be read fails
    and leaves the files as they were, so nothing is written to [distPath].
    The failure is an [IOError], unless a [bootstrap3] entry before the path
    has failed with the error of the Less compiler; it is the [IOError] of
    that path when the entries before it all have a content. *)
Theorem concatFilesContent_missing_file
    (w : World FS) pre missing post dist errno :
  missing <> "bootstrap3" ->
  readFile (fs w) missing (settings_fileEncoding this) = Err errno ->
  let out :=
    concatFilesContent lib this w
      {| filesArr := Some (pre ++ missing :: post);
         concat_distPath := dist |} in
  exists e,
    snd out = Err e
    /\ fs (fst out) = fs w
    /\ (isIOError e
        \/ (In "bootstrap3" pre /\ isStylesheetCompileError e))
    /\ (Forall (fun x =>
                  isOk (snd (readEntry this (buildBootstrap3 lib this) w x))
                  = true) pre
        -> e = IOError errno).
Proof.
  intros Hlit Hread out.
  assert (Hbad : snd (readEntry this (buildBootstrap3 lib this) w missing)
                 = Err (IOError errno)).
  { rewrite readEntry_literal by exact Hlit. cbn [snd].
    unfold readFileSync, liftIO. now rewrite Hread. }
  destruct (concatLoop_fails (buildBootstrap3 lib this) pre missing post
              (IOError errno) buildBootstrap3_readsOnly w [] Hbad)
    as (e & He & Hor & Hfirst).
  pose proof (concatLoop_fs (buildBootstrap3 lib this)
                (pre ++ missing :: post) w [] buildBootstrap3_readsOnly)
    as Hfs.
  exists e. subst out. unfold concatFilesContent, concatFilesContentWith.
  change (default [] (filesArr _)) with (pre ++ missing :: post).
  destruct (concatLoop this (buildBootstrap3 lib this) w
              (pre ++ missing :: post) []) as [w1 r]; cbn [fst snd] in *.
  subst r. cbn [fst snd]. repeat split; [exact Hfs| |exact Hfirst].
  destruct Hor as [->|(x & Hx & Ex)]; [left; now exists errno|].
  destruct (readEntry_error w x e Ex) as [Hio|[-> Hsc]]; [now left|].
  right. now split.
Qed.


End ConcatFacts.

(** ** Base names *)

Lemma substring_full s : String.substring 0 (String.length s) s = s.
Proof. induction s as [|c s IH]; [reflexivity|]. simpl. now rewrite IH. Qed.

Lemma substring_split s : forall n, n <= String.length s ->
  String.append (String.substring 0 n s)
                (String.substring n (String.length s - n) s) = s.
Proof.
  induction s as [|c s IH]; intros [|n] Hn; simpl in *;
    try reflexivity; try lia.
  - now rewrite substring_full.
  - rewrite append_cons, IH by lia. reflexivity.
Qed.

Lemma lastDot_lt s i : Path.lastDot s = Some i -> i < String.length s.
Proof.
  revert i. induction s as [|c s IH]; intros i; [discriminate|].
  simpl. destruct (Path.lastDot s) as [j|].
  - intros [= <-]. specialize (IH j eq_refl). lia.
  - destruct (Path.isDot c); [|discriminate]. intros [= <-]. lia.
Qed.

(** [name + ext] is the base name, extension included. *)
Lemma parse_name_ext p :
  JS.cat (Path.name (Path.parse p)) (Path.ext (Path.parse p))
  = Path.baseOf p
  /\ Path.base (Path.parse p) = Path.baseOf p.
Proof.
  unfold Path.parse. set (b := Path.baseOf p).
  destruct (Path.lastDot b) as [[|i]|] eqn:E;
    cbn [Path.name Path.ext Path.base];
    unfold JS.cat; rewrite ?append_empty_r; auto.
  destruct (String.eqb b ".."); cbn [Path.name Path.ext Path.base];
    rewrite ?append_empty_r; auto.
  split; [|reflexivity]. apply substring_split.
  apply lastDot_lt in E. lia.
Qed.

(** ** Minifiers, Sass and templates *)

Section TemplateFacts.

Context {FS : Type} `{FileSystem FS}.
Variable lib : Collaborators.
Variable this : Settings.

Lemma withFs_same (w : World FS) : withFs w (fs w) = w.
Proof. now destruct w. Qed.

(** C3 (amended). The text given to the minifier is [content] when it is
    present and not empty, and the text read from [srcPath] when [content]
    is absent or empty. In both cases what the minifier returns is
    returned, unless the minifier or the write throws, and its code (its
    styles) is written to [distPath], once the directory of [distPath] is
    there, when [distPath] is present and not empty; otherwise no file is
    touched. *)
Theorem minify_truthy_content_wins (w : World FS) params text :
  (content params = Some text /\ JS.isEmpty text = false)
  \/ (JS.truthy (content params) = false
      /\ exists p, srcPath params = Some p
           /\ readFile (fs w) p (settings_fileEncoding this) = Ok text) ->
  let written (code : string) : World FS * result error unit :=
    match distPath params with
    | None => (w, Ok tt)
    | Some d =>
        if JS.isEmpty d then (w, Ok tt)
        else
          match mkdirp (fs w) (Path.dirname d) with
          | Err errno => (w, Err (IOError errno))
          | Ok f1 =>
              match writeFile f1 d code (settings_fileEncoding this) with
              | Err errno => (withFs w f1, Err (IOError errno))
              | Ok f2 => (withFs w f2, Ok tt)
              end
          end
    end in
  minifyJsContent lib this w params
  = match uglifyJS_minify lib text with
    | Err e => (w, Err e)
    | Ok out =>
        (fst (written (uglifyJS.code out)),
         match snd (written (uglifyJS.code out)) with
         | Ok _ => Ok out
         | Err e => Err e
         end)
    end
  /\ minifyCssContent lib this w params
     = match CleanCSS_minify lib text with
       | Err e => (w, Err e)
       | Ok out =>
           (fst (written (CleanCSS.styles out)),
            match snd (written (CleanCSS.styles out)) with
            | Ok _ => Ok out
            | Err e => Err e
            end)
       end.
Proof.
  intros Hsrc written.
  assert (Hin : minifyInput this w params = Ok text).
  { unfold minifyInput.
    destruct Hsrc as [[Hc Hne]|[Hc (p & Hp & Hread)]].
    - rewrite Hc. cbn. now rewrite Hne.
    - rewrite Hc, Hp. unfold readFileSync, liftIO. now rewrite Hread. }
  assert (Hw : forall code,
            writeIfDistPath this w (distPath params) code = written code).
  { intros code. unfold writeIfDistPath, written, writeUnder.
    destruct (distPath params) as [d|]; [|reflexivity].
    cbn [JS.truthy default]. destruct (JS.isEmpty d); [reflexivity|].
    cbn [negb]. change (id d) with d.
    destruct (mkdirp (fs w) (Path.dirname d)) as [f1|errno].
    - destruct (writeFile f1 d code _); reflexivity.
    - now rewrite withFs_same. }
  unfold minifyJsContent, minifyCssContent. rewrite Hin. cbn [bind].
  split.
  - destruct (uglifyJS_minify lib text) as [out|e]; [|reflexivity].
    rewrite Hw. destruct (written (uglifyJS.code out)) as [w1 [[]|e]];
      reflexivity.
  - destruct (CleanCSS_minify lib text) as [out|e]; [|reflexivity].
    rewrite Hw. destruct (written (CleanCSS.styles out)) as [w1 [[]|e]];
      reflexivity.
Qed.

(** C4 (what the code does). When [data] is supplied it is not the source:
    without [file] the call is rejected with the [TypeError] of
    [fs.readFileSync(undefined)] before the compiler is reached, and with
    [file] the compiler receives the content of the file as [data]. *)
Theorem buildCustomCssFromScss_data_ignored (w : World FS) params d :
  data params = Some d -> JS.isEmpty d = false ->
  (file params = None ->
   buildCustomCssFromScss lib this w params
   = Err (TypeError "path must be a string or Buffer"))
  /\ (forall f text,
        file params = Some f ->
        readFile (fs w) f (settings_fileEncoding this) = Ok text ->
        buildCustomCssFromScss lib this w params
        = sass_render lib
            {| sass.file := Some f;
               sass.data := Some text;
               sass.outputStyle := orDefault (outputStyle params) "compressed";
               sass.outFile := outFile params;
               sass.sourceMap := sourceMap params;
               sass.sourceMapContents := sourceMapContents params |}).
Proof.
  intros Hd Hne. unfold buildCustomCssFromScss.
  rewrite Hd. cbn [JS.truthy]. rewrite Hne. cbn [negb orb].
  split.
  - intros ->. reflexivity.
  - intros f text -> Hread. unfold readFileSync, liftIO. rewrite Hread.
    reflexivity.
Qed.

(** C8 (what the code does). When the resolved source cannot be read, the
    promise is rejected with the read error, and the callback goes on to
    [sourceBody.toString()], which throws a [TypeError] that nobody
    catches; no file is written. *)
Theorem compileHbsTemplate_missing_source (w : World FS) params errno :
  readFile (fs w) (resolvePath (settings_src this) (source params))
    (settings_fileEncoding this) = Err errno ->
  snd (compileHbsTemplate lib this w params)
  = {| promise := Rejected (IOError errno);
       uncaught := Some (TypeError
                     "Cannot read property 'toString' of undefined") |}
  /\ fs (fst (compileHbsTemplate lib this w params)) = fs w.
Proof.
  intros Hread. unfold compileHbsTemplate, newObject. cbn [fs].
  rewrite Hread. split; reflexivity.
Qed.

Ltac hbs_cases :=
  unfold compileHbsTemplate, newObject;
  repeat match goal with
         | |- context [match ?x with _ => _ end] =>
             lazymatch x with
             | readFile _ _ _ => destruct x
             | Handlebars_compile _ _ _ _ => destruct x
             | mkdirp _ _ => destruct x
             | writeFile _ _ _ _ => destruct x
             end
         end.

Lemma compileHbsTemplate_heap (w : World FS) params :
  heap (fst (compileHbsTemplate lib this w params))
  = <[fresh (dom (heap w)) :=
        augmentedData (heap w) (hbs_data params)
          (Path.parse (resolvePath (settings_dist this) (target params)))]>
      (heap w).
Proof. hbs_cases; reflexivity. Qed.

Lemma compileHbsTemplate_targetPath (w : World FS) params r :
  promise (snd (compileHbsTemplate lib this w params)) = Fulfilled r ->
  targetPath r = resolvePath (settings_dist this) (target params).
Proof. hbs_cases; cbn; try discriminate; now intros [= <-]. Qed.

(** What the template engine is applied to, and what becomes of its
    answer. *)
Lemma compileHbsTemplate_render (w : World FS) params body :
  readFile (fs w) (resolvePath (settings_src this) (source params))
    (settings_fileEncoding this) = Ok body ->
  let out := compileHbsTemplate lib this w params in
  match Handlebars_compile lib body (heap (fst out))
          (fresh (dom (heap w))) with
  | Err e => snd out = {| promise := Pending; uncaught := Some e |}
  | Ok text =>
      forall r, promise (snd out) = Fulfilled r -> targetBody r = text
  end.
Proof.
  intros Hread out. subst out. rewrite compileHbsTemplate_heap.
  unfold compileHbsTemplate, newObject. cbn [fs heap].
  rewrite Hread.
  match goal with
  | |- context [Handlebars_compile ?a ?b ?c ?d] =>
      destruct (Handlebars_compile a b c d)
  end; [|reflexivity].
  destruct (mkdirp _ _); [|discriminate].
  destruct (writeFile _ _ _ _); cbn; [|discriminate].
  now intros r [= <-].
Qed.

(** C9. The template is applied to a new object [l] that holds the own
    fields of the caller's data object, as the heap has them before the
    call, and a [fileName] equal to the base name of the resolved target,
    extension included, which is [name + ext]. The objects that were in the
    heap before the call, the caller's data among them, are unchanged after
    it. *)
Theorem compileHbsTemplate_data_context (w : World FS) params :
  let target := resolvePath (settings_dist this) (target params) in
  let l := fresh (dom (heap w)) in
  let callers : object :=
    match hbs_data params with
    | Some d => match heap w !! d with Some o => o | None => ∅ end
    | None => ∅
    end in
  let ctx := <["fileName" := VString (Path.baseOf target)]> callers in
  let out := compileHbsTemplate lib this w params in
  JS.cat (Path.name (Path.parse target)) (Path.ext (Path.parse target))
  = Path.baseOf target
  /\ heap (fst out) = <[l := ctx]> (heap w)
  /\ heap w !! l = None
  /\ (forall k, k <> "fileName" -> ctx !! k = callers !! k)
  /\ (forall l0 o, heap w !! l0 = Some o -> heap (fst out) !! l0 = Some o)
  /\ (forall body,
        readFile (fs w) (resolvePath (settings_src this) (source params))
          (settings_fileEncoding this) = Ok body ->
        match Handlebars_compile lib body (<[l := ctx]> (heap w)) l with
        | Err e => snd out = {| promise := Pending; uncaught := Some e |}
        | Ok text =>
            forall r, promise (snd out) = Fulfilled r -> targetBody r = text
        end).
Proof.
  intros target l callers ctx out.
  destruct (parse_name_ext target) as [Hne _].
  assert (Hheap : heap (fst out) = <[l := ctx]> (heap w)).
  { subst out. rewrite compileHbsTemplate_heap. unfold augmentedData.
    fold target. rewrite Hne. subst ctx callers. unfold spread.
    destruct (hbs_data params) as [d|]; [|reflexivity].
    destruct (heap w !! d); reflexivity. }
  assert (Hfresh : heap w !! l = None).
  { apply not_elem_of_dom. apply is_fresh. }
  split; [exact Hne|]. split; [exact Hheap|]. split; [exact Hfresh|].
  split; [|split].
  - intros k Hk. subst ctx. now apply lookup_insert_ne.
  - intros l0 o Hl0. rewrite Hheap, lookup_insert_ne; [exact Hl0|].
    intros ->. congruence.
  - intros body Hread. rewrite <- Hheap.
    now apply compileHbsTemplate_render.
Qed.

(** C10. In the object given to the template, [fileName] is the name and
    extension of the resolved target whatever the caller's data holds under
    [fileName]; every other field is the caller's. *)
Theorem compileHbsTemplate_fileName_overrides (w : World FS) params :
  let target := resolvePath (settings_dist this) (target params) in
  let out := compileHbsTemplate lib this w params in
  exists ctx,
    heap (fst out) !! fresh (dom (heap w)) = Some ctx
    /\ ctx !! "fileName"
       = Some (VString (JS.cat (Path.name (Path.parse target))
                               (Path.ext (Path.parse target))))
    /\ forall k, k <> "fileName" ->
         ctx !! k = spread (heap w) (hbs_data params) !! k.
Proof.
  intros target out. subst out. rewrite compileHbsTemplate_heap.
  eexists. split; [apply lookup_insert_eq|]. unfold augmentedData.
  split; [apply lookup_insert_eq|].
  intros k Hk. now apply lookup_insert_ne.
Qed.

(** The loop over a list of jobs that are all fulfilled goes on with the
    rest from the world and the results it has reached. *)
Lemma compileHbsLoop_app data pre rest : forall (w : World FS) acc w1 rs o,
  compileHbsLoop lib this w pre data acc = (w1, rs, o) ->
  isFulfilled o = true ->
  compileHbsLoop lib this w (pre ++ rest) data acc
  = compileHbsLoop lib this w1 rest data rs.
Proof.
  induction pre as [|f pre IH]; intros w acc w1 rs o Hrun Hok.
  - cbn in Hrun. injection Hrun as <- <- <-. reflexivity.
  - cbn [app compileHbsLoop] in *.
    destruct (compileHbsTemplate lib this w _) as [w' oj].
    destruct (uncaught oj) as [e|].
    + injection Hrun as <- <- <-. discriminate.
    + destruct (promise oj) as [|r|e].
      * injection Hrun as <- <- <-. discriminate.
      * eapply IH; eassumption.
      * injection Hrun as <- <- <-. discriminate.
Qed.

Lemma compileHbsLoop_results data pre : forall (w : World FS) acc w1 rs o,
  compileHbsLoop lib this w pre data acc = (w1, rs, o) ->
  isFulfilled o = true ->
  promise o = Fulfilled rs
  /\ exists rs', rs = acc ++ rs'
       /\ List.map targetPath rs'
          = List.map (fun f => resolvePath (settings_dist this)
                                 (file_target f)) pre.
Proof.
  induction pre as [|f pre IH]; intros w acc w1 rs o Hrun Hok.
  - cbn in Hrun. injection Hrun as <- <- <-. split; [reflexivity|].
    exists []. now rewrite app_nil_r.
  - cbn [compileHbsLoop] in Hrun.
    pose proof (compileHbsTemplate_targetPath w
                  {| source := file_source f; target := file_target f;
                     hbs_data := data |}) as Htp.
    destruct (compileHbsTemplate lib this w _) as [w' oj].
    cbn [snd target] in Htp.
    destruct (uncaught oj) as [e|].
    + injection Hrun as <- <- <-. discriminate.
    + destruct (promise oj) as [|r|e].
      * injection Hrun as <- <- <-. discriminate.
      * destruct (IH _ _ _ _ _ Hrun Hok) as (Hp & rs' & -> & Hmap).
        split; [exact Hp|]. exists (r :: rs').
        rewrite <- app_assoc. split; [reflexivity|].
        cbn [List.map]. now rewrite Hmap, (Htp r eq_refl).
      * injection Hrun as <- <- <-. discriminate.
Qed.


End TemplateFacts.

(** ** The properties on the fixtures *)

Lemma resolvePath_idempotent_when_rooted_witness :
  (plainRoot "./src" = true /\ climbsAbove "pages/a.hbs" = false)
  /\ resolvePath "./src" (resolvePath "./src" "pages/a.hbs")
     = resolvePath "./src" "pages/a.hbs".
Proof.
  split; [split; reflexivity|].
  apply resolvePath_idempotent_when_rooted. right. split; reflexivity.
Defined.

(** The path [../x] is resolved to [x] under [./src], and [x] to [src/x]. *)
Lemma resolvePath_not_idempotent_when_climbing :
  resolvePath "./src" "../x" = "x"
  /\ resolvePath "./src" (resolvePath "./src" "../x") = "src/x"
  /\ resolvePath "./src" (resolvePath "./src" "../x")
     <> resolvePath "./src" "../x".
Proof. vm_compute. repeat split. discriminate. Qed.

(** [src-other/x] is not under [./src], and is taken as rooted there. *)
Lemma resolvePath_prefix_test_witness :
  liesUnder "./src" "src-other/x" = false
  /\ String.prefix (Path.normalize "./src") (Path.normalize "src-other/x")
     = true
  /\ resolvePath "./src" "src-other/x" = "src-other/x".
Proof.
  split; [reflexivity|]. split; [reflexivity|].
  exact (proj2 (resolvePath_prefix_test "./src" "src-other/x" eq_refl)
           eq_refl).
Defined.

Definition minifyRequest : IMinifyContent :=
  {| content := Some "a  {  }";
     srcPath := Some "a.js";
     distPath := Some "dist/a.min.js" |}.

(** A request without [content]: the text of [a.js] is minified and written. *)
Definition srcRequest : IMinifyContent :=
  {| content := None;
     srcPath := Some "a.js";
     distPath := Some "dist/a.min.js" |}.

Lemma minify_truthy_content_wins_witness :
  (snd (minifyJsContent Fixture.echo Fixture.build Fixture.site
          minifyRequest)
   = Ok {| uglifyJS.code := "a  {  }"; uglifyJS.map := "" |}
   /\ MemFS.files
        (fs (fst (minifyJsContent Fixture.echo Fixture.build Fixture.site
                    minifyRequest))) !! "dist/a.min.js"
      = Some "a  {  }")
  /\ (snd (minifyCssContent Fixture.echo Fixture.build Fixture.site
             srcRequest)
      = Ok {| CleanCSS.styles := "var x = 1;" |}
      /\ MemFS.files
           (fs (fst (minifyCssContent Fixture.echo Fixture.build Fixture.site
                       srcRequest))) !! "dist/a.min.js"
         = Some "var x = 1;"
      /\ MemFS.dirs
           (fs (fst (minifyCssContent Fixture.echo Fixture.build Fixture.site
                       srcRequest)))
         = {[ "dist" ]}).
Proof.
  destruct (minify_truthy_content_wins Fixture.echo Fixture.build
              Fixture.site minifyRequest "a  {  }") as [Hjs _].
  { left. split; reflexivity. }
  destruct (minify_truthy_content_wins Fixture.echo Fixture.build
              Fixture.site srcRequest "var x = 1;") as [_ Hcss].
  { right. split; [reflexivity|]. exists "a.js". split; reflexivity. }
  rewrite Hjs, Hcss. repeat split; reflexivity.
Defined.

Definition emptyContentRequest : IMinifyContent :=
  {| content := Some ""; srcPath := Some "a.js"; distPath := None |}.

(** A request whose [content] is the empty string: the text of [a.js] is
    what is minified. *)
Lemma minify_empty_content_reads_srcPath :
  content emptyContentRequest = Some ""
  /\ minifyInput Fixture.build Fixture.site emptyContentRequest
     = Ok "var x = 1;"
  /\ snd (minifyJsContent Fixture.echo Fixture.build Fixture.site
            emptyContentRequest)
     = Ok {| uglifyJS.code := "var x = 1;"; uglifyJS.map := "" |}
  /\ snd (minifyCssContent Fixture.echo Fixture.build Fixture.site
            emptyContentRequest)
     = Ok {| CleanCSS.styles := "var x = 1;" |}
  /\ minifyInput Fixture.build Fixture.site emptyContentRequest <> Ok "".
Proof. vm_compute. repeat split. discriminate. Qed.

Definition scssRequest (f : option string) : IBuildCustomCssFromScss :=
  {| file := f;
     data := Some "x{y:z}";
     outputStyle := None;
     outFile := None;
     sourceMap := None;
     sourceMapContents := None |}.

Lemma buildCustomCssFromScss_data_ignored_witness :
  buildCustomCssFromScss Fixture.echo Fixture.build Fixture.site
    (scssRequest None)
  = Err (TypeError "path must be a string or Buffer")
  /\ buildCustomCssFromScss Fixture.echo Fixture.build Fixture.site
       (scssRequest (Some "main.scss"))
     = Ok {| sass.css := "a{b:c}"; sass.map := None |}.
Proof.
  split.
  - exact (proj1 (buildCustomCssFromScss_data_ignored Fixture.echo
                    Fixture.build Fixture.site (scssRequest None) "x{y:z}"
                    eq_refl eq_refl) eq_refl).
  - exact (proj2 (buildCustomCssFromScss_data_ignored Fixture.echo
                    Fixture.build Fixture.site
                    (scssRequest (Some "main.scss")) "x{y:z}"
                    eq_refl eq_refl) "main.scss" "a{b:c}" eq_refl eq_refl).
Defined.

Definition concatRequest (entries : list string) : IConcatFilesContent :=
  {| filesArr := Some entries; concat_distPath := Some "dist/all.css" |}.

Lemma concatFilesContent_missing_file_witness :
  snd (concatFilesContent Fixture.echo Fixture.build Fixture.site
         (concatRequest ["a.css"; "missing.css"; "b.css"]))
  = Err (IOError "ENOENT")
  /\ MemFS.files
       (fs (fst (concatFilesContent Fixture.echo Fixture.build Fixture.site
                   (concatRequest ["a.css"; "missing.css"; "b.css"]))))
       !! "dist/all.css" = None.
Proof.
  destruct (concatFilesContent_missing_file Fixture.echo Fixture.build
              Fixture.site ["a.css"] "missing.css" ["b.css"]
              (Some "dist/all.css") "ENOENT")
    as (e & He & Hfs & _ & Hfirst).
  - discriminate.
  - reflexivity.
  - unfold concatRequest. cbn [app] in He, Hfs. split.
    + rewrite He. f_equal. apply Hfirst. repeat constructor.
    + rewrite Hfs. reflexivity.
Defined.

(** Bootstrap 3 is installed and [less] rejects the bundle: the request
    fails with the error of the Less compiler before [missing.css] is
    read. *)
Lemma concatFilesContent_missing_file_less_error :
  readFile (fs Fixture.bootstrapSite) "missing.css" "utf-8" = Err "ENOENT"
  /\ snd (concatFilesContent Fixture.brokenLess Fixture.build
            Fixture.bootstrapSite
            (concatRequest ["bootstrap3"; "missing.css"]))
     = Err (StylesheetCompileError "Less compilation error:boom")
  /\ ~ isIOError (StylesheetCompileError "Less compilation error:boom").
Proof.
  split; [reflexivity|]. split; [vm_compute; reflexivity|].
  intros [errno Hno]. discriminate Hno.
Qed.





Lemma compileHbsTemplate_missing_source_witness :
  snd (compileHbsTemplate Fixture.echo Fixture.build Fixture.site
         {| source := "b.hbs"; target := "b.html"; hbs_data := None |})
  = {| promise := Rejected (IOError "ENOENT");
       uncaught := Some (TypeError
                     "Cannot read property 'toString' of undefined") |}.
Proof.
  exact (proj1 (compileHbsTemplate_missing_source Fixture.echo Fixture.build
                  Fixture.site
                  {| source := "b.hbs"; target := "b.html";
                     hbs_data := None |} "ENOENT" eq_refl)).
Defined.

Definition homePage : ICompileHbsTemplate :=
  {| source := "a.hbs"; target := "pages/a.html";
     hbs_data := Some 1%positive |}.

Lemma compileHbsTemplate_data_context_witness :
  heap (fst (compileHbsTemplate Scenario.titled Fixture.build Fixture.site
               homePage)) !! 1%positive
  = Some Fixture.callerData
  /\ heap (fst (compileHbsTemplate Scenario.titled Fixture.build
                  Fixture.site homePage)) !! 2%positive
     = Some {[ "fileName" := VString "a.html"; "title" := VString "Home" ]}
  /\ exists r,
       promise (snd (compileHbsTemplate Scenario.titled Fixture.build
                       Fixture.site homePage)) = Fulfilled r
       /\ targetBody r = "Hello Home in a.html".
Proof.
  destruct (compileHbsTemplate_data_context Scenario.titled Fixture.build
              Fixture.site homePage) as (_ & Hheap & _ & _ & Hkeep & Hrender).
  split; [apply Hkeep; reflexivity|].
  split; [rewrite Hheap; reflexivity|].
  assert (Hr : forall r,
            promise (snd (compileHbsTemplate Scenario.titled Fixture.build
                            Fixture.site homePage)) = Fulfilled r ->
            targetBody r = "Hello Home in a.html")
    by exact (Hrender "Hello " eq_refl).
  eexists. split; [reflexivity|]. apply Hr. reflexivity.
Defined.

Lemma compileHbsTemplate_fileName_overrides_witness :
  Fixture.callerData !! "fileName" = Some (VString "mine")
  /\ exists ctx,
       heap (fst (compileHbsTemplate Fixture.echo Fixture.build Fixture.site
                    homePage)) !! 2%positive = Some ctx
       /\ ctx !! "fileName" = Some (VString "a.html")
       /\ ctx !! "title" = Some (VString "Home").
Proof.
  split; [reflexivity|].
  destruct (compileHbsTemplate_fileName_overrides Fixture.echo Fixture.build
              Fixture.site homePage) as (ctx & Hctx & Hname & Hrest).
  exists ctx. split; [exact Hctx|]. split; [exact Hname|].
  rewrite Hrest by discriminate. reflexivity.
Defined.

(** * Further properties *)

(** ** Resolved paths *)

Lemma assemble_trailing isAbs trailing x l :
  forallb plain (x :: l) = true ->
  Path.trailingSeparator (assemble isAbs trailing (x :: l)) = trailing.
Proof.
  intros Hp. destruct trailing; [apply assemble_trailing_true|].
  rewrite assemble_cons, append_empty_r.
  destruct (join_head (x :: l)) as (c & t & EJ & _); [congruence|exact Hp|].
  destruct (join_last (x :: l)) as (d & EL & Hd); [congruence|exact Hp|].
  unfold Path.trailingSeparator. rewrite lastChar_append, EJ, <- EJ, EL.
  exact Hd.
Qed.

Lemma trailingSeparator_append a b :
  JS.isEmpty b = false ->
  Path.trailingSeparator (String.append a b) = Path.trailingSeparator b.
Proof.
  intros Hb. unfold Path.trailingSeparator. rewrite lastChar_append.
  now destruct b.
Qed.

(** Joining two normalized paths, the second of which does not go up. *)
Lemma join_assembled absR trailR SR absP trailP SP :
  stackOk (negb absR) SR = true ->
  stackOk (negb absP) SP = true ->
  forallb isName SP = true ->
  Path.join [assemble absR trailR (rev SR); assemble absP trailP (rev SP)]
  = assemble absR
      (Path.trailingSeparator (assemble absP trailP (rev SP)))
      (rev SR ++ rev SP).
Proof.
  intros HokR HokP Hnames.
  assert (HplainR : forallb plain (rev SR) = true).
  { rewrite forallb_rev. eapply stackOk_plain; exact HokR. }
  assert (HplainP : forallb plain (rev SP) = true).
  { rewrite forallb_rev. eapply stackOk_plain; exact HokP. }
  set (r := assemble absR trailR (rev SR)).
  set (np := assemble absP trailP (rev SP)).
  assert (HneR : JS.isEmpty r = false) by now apply assemble_isEmpty.
  assert (HneP : JS.isEmpty np = false) by now apply assemble_isEmpty.
  unfold Path.join, Path.joinArgs. rewrite HneR, HneP. unfold JS.cat.
  change (String.append "/" np) with (String "/" np).
  set (q := String.append r (String "/" np)).
  assert (Hq : JS.isEmpty q = false).
  { unfold q. destruct r; [discriminate|reflexivity]. }
  assert (Habs : Path.isAbsolute q = absR).
  { unfold q. rewrite isAbsolute_append by exact HneR.
    now apply assemble_isAbsolute. }
  assert (Htrail : Path.trailingSeparator q = Path.trailingSeparator np).
  { unfold q. rewrite trailingSeparator_append by reflexivity.
    change (String "/" np) with (String.append "/" np).
    now apply trailingSeparator_append. }
  destruct (normalize_unfold q Hq) as (S & HS & _ & ->).
  rewrite Habs, Htrail in *. f_equal.
  assert (HokA : stackOk (negb absR) (SP ++ SR) = true)
    by now apply stackOk_names_app.
  rewrite <- HS. unfold q, r, np. rewrite segments_app_slash.
  rewrite normalizeSegments_assemble by (now rewrite app_nil_r).
  rewrite app_nil_r, <- (app_nil_r (Path.segments _)).
  rewrite normalizeSegments_assemble by exact HokA.
  cbn [Path.normalizeSegments]. apply rev_app_distr.
Qed.

Lemma isAbsolute_not_climbing p :
  Path.isAbsolute (Path.normalize p) = true -> climbsAbove p = false.
Proof.
  intros Habs. unfold climbsAbove.
  destruct (normalize_spec p) as (absP & trailP & SP & HokP & EP).
  rewrite EP in *.
  assert (HplainP : forallb plain (rev SP) = true).
  { rewrite forallb_rev. eapply stackOk_plain; exact HokP. }
  rewrite assemble_isAbsolute in Habs by exact HplainP. subst absP.
  destruct (rev SP) as [|x l]; [now destruct trailP|].
  now rewrite assemble_segments.
Qed.

(** X1. A path whose normalized form does not start with the root, does not
    go up with [..] and is not the current directory is put behind the
    normalized root: with one separator between the two when it is
    relative, as it is when it is absolute. *)
Theorem resolvePath_appends_to_root root p :
  plainRoot root = true ->
  Path.normalize root <> "/" ->
  climbsAbove p = false ->
  Path.normalize p <> "." -> Path.normalize p <> "./" ->
  String.prefix (Path.normalize root) (Path.normalize p) = false ->
  resolvePath root p
  = String.append (Path.normalize root)
      (if Path.isAbsolute (Path.normalize p) then Path.normalize p
       else String "/" (Path.normalize p)).
Proof.
  unfold plainRoot, climbsAbove, resolvePath.
  intros Hroot Hnotslash Hclimb Hdot Hdotslash Hpre.
  rewrite indexOf_isnt_0_prefix, Hpre. cbn [negb].
  destruct (normalize_spec root) as (absR & trailR & SR & HokR & ER).
  destruct (normalize_spec p) as (absP & trailP & SP & HokP & EP).
  rewrite EP in Hclimb.
  pose proof (climbsAbove_names _ _ _ HokP Hclimb) as Hnames.
  assert (HplainR : forallb plain (rev SR) = true).
  { rewrite forallb_rev. eapply stackOk_plain; exact HokR. }
  assert (HplainP : forallb plain (rev SP) = true).
  { rewrite forallb_rev. eapply stackOk_plain; exact HokP. }
  rewrite ER, EP in *. clear ER EP.
  rewrite join_assembled by assumption.
  rewrite (assemble_isAbsolute absP) by exact HplainP.
  destruct (rev SR) as [|x l] eqn:HSR.
  { exfalso. destruct absR; [now apply Hnotslash|].
    destruct trailR; discriminate Hroot. }
  assert (trailR = false) as ->.
  { destruct trailR; [|reflexivity].
    rewrite assemble_trailing_true, assemble_not_slash in Hroot
      by exact HplainR. discriminate Hroot. }
  destruct (rev SP) as [|y l'] eqn:HSP.
  - destruct absP.
    + rewrite app_nil_r, !assemble_cons, append_empty_r.
      cbn [assemble]. change (Path.trailingSeparator "/") with true.
      cbv iota. now rewrite !append_assoc.
    + destruct trailP; [now elim Hdotslash|now elim Hdot].
  - rewrite (assemble_trailing absP trailP y l') by exact HplainP.
    change ((x :: l) ++ y :: l') with (x :: (l ++ y :: l')).
    rewrite (assemble_cons absR trailP), (assemble_cons absR false),
      (assemble_cons absP trailP).
    change (x :: l ++ y :: l') with ((x :: l) ++ y :: l').
    rewrite join_app by congruence.
    rewrite append_empty_r, !append_assoc.
    destruct absP; reflexivity.
Qed.

(** X2. A resolved path is in normal form, so that normalizing it again
    changes nothing, and it is never empty. *)
Theorem resolvePath_is_normalized root p :
  Path.normalize (resolvePath root p) = resolvePath root p
  /\ JS.isEmpty (resolvePath root p) = false.
Proof.
  split; [apply resolvePath_normal|].
  rewrite <- resolvePath_normal. apply normalize_nonempty.
Qed.

Lemma segmentsPrefix_app a b : segmentsPrefix a (a ++ b) = true.
Proof.
  induction a as [|x a IH]; [reflexivity|]. cbn [app segmentsPrefix].
  now rewrite String.eqb_refl, IH.
Qed.

(** A root that has a name and no trailing separator. *)
Lemma plainRoot_named root :
  plainRoot root = true -> Path.normalize root <> "/" ->
  exists absR SR x l,
    stackOk (negb absR) SR = true /\ rev SR = x :: l
    /\ Path.normalize root = assemble absR false (x :: l).
Proof.
  unfold plainRoot. intros Hroot Hnotslash.
  destruct (normalize_spec root) as (absR & trailR & SR & HokR & ER).
  assert (HplainR : forallb plain (rev SR) = true).
  { rewrite forallb_rev. eapply stackOk_plain; exact HokR. }
  rewrite ER in *.
  destruct (rev SR) as [|x l] eqn:HSR.
  { exfalso. destruct absR; [now apply Hnotslash|].
    destruct trailR; discriminate Hroot. }
  assert (trailR = false) as ->.
  { destruct trailR; [|reflexivity].
    rewrite assemble_trailing_true, assemble_not_slash in Hroot
      by exact HplainR. discriminate Hroot. }
  now exists absR, SR, x, l.
Qed.

(** The segments of a path joined behind a root start with those of the
    root. *)
Lemma join_lies_under absR SR x l absP trailP SP :
  stackOk (negb absR) SR = true -> rev SR = x :: l ->
  stackOk (negb absP) SP = true -> forallb isName SP = true ->
  segmentsPrefix (Path.segments (assemble absR false (x :: l)))
    (Path.segments
       (Path.join [assemble absR false (x :: l);
                   assemble absP trailP (rev SP)])) = true.
Proof.
  intros HokR HSR HokP Hnames.
  assert (HplainR : forallb plain (x :: l) = true).
  { rewrite <- HSR, forallb_rev. eapply stackOk_plain; exact HokR. }
  assert (HplainP : forallb plain (rev SP) = true).
  { rewrite forallb_rev. eapply stackOk_plain; exact HokP. }
  rewrite <- HSR, join_assembled by assumption. rewrite HSR.
  set (t := Path.trailingSeparator _). clearbody t.
  change ((x :: l) ++ rev SP) with (x :: (l ++ rev SP)).
  assert (HplainA : forallb plain (x :: l ++ rev SP) = true).
  { change (x :: l ++ rev SP) with ((x :: l) ++ rev SP).
    rewrite forallb_app, HplainR, HplainP. reflexivity. }
  rewrite (assemble_segments absR false x l HplainR).
  rewrite (assemble_segments absR t x (l ++ rev SP) HplainA).
  rewrite app_nil_r.
  change (x :: l ++ rev SP) with ((x :: l) ++ rev SP).
  rewrite <- !app_assoc, (app_assoc _ (x :: l)).
  apply segmentsPrefix_app.
Qed.

(** An absolute path joined behind a root is appended to it. *)
Lemma join_absolute_append absR SR x l trailP SP :
  stackOk (negb absR) SR = true -> rev SR = x :: l ->
  stackOk false SP = true ->
  Path.join [assemble absR false (x :: l); assemble true trailP (rev SP)]
  = String.append (assemble absR false (x :: l))
                  (assemble true trailP (rev SP)).
Proof.
  intros HokR HSR HokP.
  assert (HplainP : forallb plain (rev SP) = true).
  { rewrite forallb_rev. eapply stackOk_plain; exact HokP. }
  rewrite <- HSR, join_assembled;
    [|exact HokR|exact HokP|now apply stackOk_false_names].
  rewrite HSR.
  destruct (rev SP) as [|y l'] eqn:HSP.
  - rewrite app_nil_r, !assemble_cons, append_empty_r.
    cbn [assemble]. change (Path.trailingSeparator "/") with true.
    cbv iota. now rewrite !append_assoc.
  - rewrite (assemble_trailing true trailP y l') by exact HplainP.
    change ((x :: l) ++ y :: l') with (x :: (l ++ y :: l')).
    rewrite (assemble_cons absR trailP), (assemble_cons absR false),
      (assemble_cons true trailP).
    change (x :: l ++ y :: l') with ((x :: l) ++ y :: l').
    rewrite join_app by congruence.
    rewrite append_empty_r, !append_assoc. reflexivity.
Qed.

(** Whether a resolved path lies under its root. *)
Lemma resolvePath_liesUnder root p :
  plainRoot root = true -> Path.normalize root <> "/" ->
  climbsAbove p = false ->
  liesUnder root (resolvePath root p)
  = negb (String.prefix (Path.normalize root) (Path.normalize p))
    || liesUnder root p.
Proof.
  intros Hroot Hnotslash Hclimb. unfold liesUnder.
  rewrite resolvePath_normal. unfold resolvePath.
  rewrite indexOf_isnt_0_prefix.
  destruct (String.prefix _ _); [reflexivity|]. cbn [negb orb].
  destruct (plainRoot_named root Hroot Hnotslash)
    as (absR & SR & x & l & HokR & HSR & ->).
  unfold climbsAbove in Hclimb.
  destruct (normalize_spec p) as (absP & trailP & SP & HokP & EP).
  rewrite EP in *.
  pose proof (climbsAbove_names _ _ _ HokP Hclimb) as Hnames.
  now apply (join_lies_under absR SR x l absP trailP SP).
Qed.

(** X3. Under a relative root that has a name and no trailing separator,
    an absolute path is never used as it is: it is resolved to the
    normalized root followed by the normalized path, which is another path
    and lies under the root segment by segment. *)
Theorem resolvePath_rebases_absolute root p :
  plainRoot root = true ->
  Path.isAbsolute (Path.normalize root) = false ->
  Path.isAbsolute (Path.normalize p) = true ->
  resolvePath root p
  = String.append (Path.normalize root) (Path.normalize p)
  /\ resolvePath root p <> Path.normalize p
  /\ liesUnder root (resolvePath root p) = true.
Proof.
  intros Hroot HrelR HabsP.
  assert (Hnotslash : Path.normalize root <> "/").
  { intros E. rewrite E in HrelR. discriminate HrelR. }
  assert (Hpre : String.prefix (Path.normalize root) (Path.normalize p)
                 = false).
  { pose proof (normalize_nonempty root) as HneR.
    destruct (Path.normalize root) as [|c r]; [discriminate HneR|].
    destruct (Path.normalize p) as [|d q]; [discriminate HabsP|].
    cbn in HrelR, HabsP. cbn [String.prefix].
    destruct (ascii_dec c d) as [->|]; [congruence|reflexivity]. }
  assert (Heq : resolvePath root p
                = String.append (Path.normalize root) (Path.normalize p)).
  { unfold resolvePath. rewrite indexOf_isnt_0_prefix, Hpre. cbn [negb].
    destruct (plainRoot_named root Hroot Hnotslash)
      as (absR & SR & x & l & HokR & HSR & ER).
    destruct (normalize_spec p) as (absP & trailP & SP & HokP & EP).
    rewrite ER, EP in *.
    assert (HplainP : forallb plain (rev SP) = true).
    { rewrite forallb_rev. eapply stackOk_plain; exact HokP. }
    rewrite assemble_isAbsolute in HabsP by exact HplainP. subst absP.
    now apply (join_absolute_append absR SR). }
  split; [exact Heq|]. split.
  - rewrite Heq. intros E.
    assert (Habs : Path.isAbsolute
                     (String.append (Path.normalize root) (Path.normalize p))
                   = false).
    { rewrite isAbsolute_append by apply normalize_nonempty. exact HrelR. }
    rewrite E in Habs. congruence.
  - rewrite resolvePath_liesUnder, Hpre;
      [reflexivity|exact Hroot|exact Hnotslash|].
    now apply isAbsolute_not_climbing.
Qed.

(** ** The bundle and the concatenation *)

Lemma join_sep_app sep L1 L2 : L1 <> [] -> L2 <> [] ->
  JS.join sep (L1 ++ L2)
  = String.append (JS.join sep L1) (String.append sep (JS.join sep L2)).
Proof.
  induction L1 as [|x [|y L1] IH]; intros H1 H2; [congruence| |].
  - destruct L2; [congruence|]. reflexivity.
  - change ((x :: y :: L1) ++ L2) with (x :: y :: (L1 ++ L2)).
    change (JS.join sep (x :: y :: L1 ++ L2))
      with (String.append x (String.append sep
              (JS.join sep ((y :: L1) ++ L2)))).
    rewrite IH by congruence.
    change (JS.join sep (x :: y :: L1))
      with (String.append x (String.append sep (JS.join sep (y :: L1)))).
    now rewrite !append_assoc.
Qed.

Section ConcatExtras.

Context {FS : Type} `{FileSystem FS}.
Variable lib : Collaborators.
Variable this : Settings.

(** A generator that leaves the heap alone. *)
Lemma concatLoop_heap boot files : forall (w : World FS) acc,
  (forall w, heap (fst (boot w)) = heap w) ->
  heap (fst (concatLoop this boot w files acc)) = heap w.
Proof.
  induction files as [|p files IH]; intros w acc Hb; [reflexivity|].
  cbn [concatLoop]. unfold readEntry.
  destruct (String.eqb p "bootstrap3").
  - pose proof (Hb w) as Hw. destruct (boot w) as [w1 [c|e]]; cbn [fst] in *.
    + now rewrite IH.
    + exact Hw.
  - destruct (readFileSync this (fs w) (Some p)); [|reflexivity].
    now apply IH.
Qed.

(** Readable literal paths are read in order, and nothing else happens. *)
Lemma concatLoop_literal_ok boot files contents : forall (w : World FS) acc,
  (forall p, In p files -> p <> "bootstrap3") ->
  Forall2 (fun p c => readFile (fs w) p (settings_fileEncoding this) = Ok c)
          files contents ->
  concatLoop this boot w files acc = (w, Ok (acc ++ contents)).
Proof.
  intros w acc Hno Hall. revert acc.
  induction Hall as [|p c files contents Hp Hall IH]; intros acc.
  - cbn. now rewrite app_nil_r.
  - cbn [concatLoop]. rewrite readEntry_literal by (apply Hno; now left).
    unfold readFileSync, liftIO. rewrite Hp.
    rewrite IH by (intros q Hq; apply Hno; now right).
    now rewrite <- app_assoc.
Qed.

Lemma buildBootstrap3_heap (w : World FS) :
  heap (fst (buildBootstrap3 lib this w)) = heap w.
Proof.
  unfold buildBootstrap3, buildBootstrap3With.
  destruct (existsSync (fs w) (bootstrapRoot lib)); [|reflexivity].
  rewrite concatFilesContentWith_nodist.
  pose proof (concatLoop_heap neverCalled (bootstrapPaths lib) w []
                (fun w => eq_refl)) as Hw.
  destruct (concatLoop this neverCalled w (bootstrapPaths lib) [])
    as [w1 [cs|e]]; cbn [fst snd bind] in *; [|exact Hw].
  destruct (require_less lib) as [render|]; [|exact Hw].
  match goal with
  | |- context [match ?r ?a ?b with Ok _ => _ | Err _ => _ end] =>
      destruct (r a b)
  end; exact Hw.
Qed.

(** X14. [buildBootstrap3] changes no file and no object, and its result
    depends on the files only. *)
Theorem buildBootstrap3_only_reads (w : World FS) :
  fs (fst (buildBootstrap3 lib this w)) = fs w
  /\ heap (fst (buildBootstrap3 lib this w)) = heap w
  /\ forall w' : World FS,
       fs w' = fs w ->
       snd (buildBootstrap3 lib this w') = snd (buildBootstrap3 lib this w).
Proof.
  destruct (buildBootstrap3_readsOnly lib this) as [Hfs Hdep].
  split; [apply Hfs|]. split; [apply buildBootstrap3_heap|].
  intros w' Hw. now apply Hdep.
Qed.

(** X15. The bundle is the empty string, and not an error, when the
    directory of Bootstrap does not exist, and also when it exists with all
    its component files but [less] is not installed; a line on the console
    says which. *)
Theorem buildBootstrap3_degrades_to_empty (w : World FS) :
  (existsSync (fs w) (bootstrapRoot lib) = false ->
   buildBootstrap3 lib this w
   = (console_log w "No Bootstrap 3 installed found", Ok ""))
  /\ (forall contents,
        existsSync (fs w) (bootstrapRoot lib) = true ->
        Forall2 (fun p c =>
                   readFile (fs w) p (settings_fileEncoding this) = Ok c)
                (bootstrapPaths lib) contents ->
        require_less lib = None ->
        buildBootstrap3 lib this w
        = (console_log w "`npm i -D less` is required to build Bootstrap 3",
           Ok "")).
Proof.
  unfold buildBootstrap3, buildBootstrap3With. split.
  - intros ->. reflexivity.
  - intros contents -> Hall ->. rewrite concatFilesContentWith_nodist.
    rewrite (concatLoop_literal_ok neverCalled _ contents w []
               (bootstrapPaths_not_reserved lib) Hall).
    reflexivity.
Qed.

(** X17. When a component file cannot be read, [buildBootstrap3] fails
    with an [IOError] whatever [less] is, and no file is changed. *)
Theorem buildBootstrap3_unreadable_component (w : World FS) p errno :
  existsSync (fs w) (bootstrapRoot lib) = true ->
  In p (bootstrapPaths lib) ->
  readFile (fs w) p (settings_fileEncoding this) = Err errno ->
  exists e,
    snd (buildBootstrap3 lib this w) = Err (IOError e)
    /\ fs (fst (buildBootstrap3 lib this w)) = fs w.
Proof.
  intros Hroot Hin Hread.
  destruct (in_split _ _ Hin) as (pre & post & Hsplit).
  assert (Hbad : snd (readEntry this neverCalled w p) = Err (IOError errno)).
  { rewrite readEntry_literal by now apply (bootstrapPaths_not_reserved lib).
    cbn [snd]. unfold readFileSync, liftIO. now rewrite Hread. }
  destruct (concatLoop_fails this neverCalled pre p post (IOError errno)
              neverCalled_readsOnly w [] Hbad) as (e & He & _ & _).
  rewrite <- Hsplit in He.
  destruct (concatLoop_literal_error this neverCalled (bootstrapPaths lib) w
              [] e (bootstrapPaths_not_reserved lib) He) as [no ->].
  exists no. split.
  - unfold buildBootstrap3, buildBootstrap3With. rewrite Hroot.
    rewrite concatFilesContentWith_nodist.
    destruct (concatLoop this neverCalled w (bootstrapPaths lib) [])
      as [w1 r]. cbn [fst snd] in *. subst r. reflexivity.
  - apply (buildBootstrap3_readsOnly lib this).
Qed.

(** X18. The method that [buildBootstrap3] calls on the component files is
    [concatFilesContent], and that call does not come back to
    [buildBootstrap3]: whatever the working directory, no component path is
    the reserved entry. *)
Theorem buildBootstrap3_does_not_recurse (w : World FS) :
  buildBootstrap3 lib this w
  = buildBootstrap3With lib (concatFilesContent lib this) w
  /\ ~ In "bootstrap3" (bootstrapPaths lib).
Proof.
  split; [apply buildBootstrap3_unfold|].
  intros Hin. now apply (bootstrapPaths_not_reserved lib _ Hin).
Qed.

Lemma concatLoop_ok_inv boot files : forall (w : World FS) acc cs,
  readsOnly boot ->
  snd (concatLoop this boot w files acc) = Ok cs ->
  exists contents,
    Forall2 (fun e c => snd (readEntry this boot w e) = Ok c) files contents
    /\ cs = acc ++ contents.
Proof.
  induction files as [|p files IH]; intros w acc cs Hb.
  - cbn. intros [= <-]. exists []. split; [constructor|].
    now rewrite app_nil_r.
  - cbn [concatLoop].
    pose proof (readEntry_fs this boot w p Hb) as Hw.
    destruct (readEntry this boot w p) as [w1 [c|e]] eqn:Ep;
      cbn [fst snd] in *; [|discriminate].
    rewrite (concatLoop_snd this boot files w1 w _ Hb Hw).
    intros Hrest. destruct (IH w _ _ Hb Hrest) as (contents & Hall & ->).
    exists (c :: contents). split; [|now rewrite <- app_assoc].
    constructor; [now rewrite Ep|exact Hall].
Qed.

Lemma concat_nodist_snd (w : World FS) files :
  snd (concatFilesContent lib this w
         {| filesArr := Some files; concat_distPath := None |})
  = bind (snd (concatLoop this (buildBootstrap3 lib this) w files []))
         (fun cs => Ok (JS.join EOL cs)).
Proof.
  unfold concatFilesContent. now rewrite concatFilesContentWith_nodist.
Qed.

(** X12. Without [distPath], the text of two non-empty lists of entries
    one after the other is the text of the first, [EOL], and the text of
    the second. *)
Theorem concatFilesContent_app (w : World FS) xs ys a b :
  xs <> [] -> ys <> [] ->
  snd (concatFilesContent lib this w
         {| filesArr := Some xs; concat_distPath := None |}) = Ok a ->
  snd (concatFilesContent lib this w
         {| filesArr := Some ys; concat_distPath := None |}) = Ok b ->
  snd (concatFilesContent lib this w
         {| filesArr := Some (xs ++ ys); concat_distPath := None |})
  = Ok (JS.cat a (JS.cat EOL b)).
Proof.
  intros Hxs Hys. rewrite !concat_nodist_snd.
  pose proof (buildBootstrap3_readsOnly lib this) as Hb.
  destruct (snd (concatLoop this _ w xs [])) as [cs1|e] eqn:E1;
    [|discriminate].
  destruct (snd (concatLoop this _ w ys [])) as [cs2|e] eqn:E2;
    [|discriminate].
  cbn [bind]. intros [= <-] [= <-].
  destruct (concatLoop_ok_inv _ xs w [] cs1 Hb E1) as (c1 & H1f & ->).
  destruct (concatLoop_ok_inv _ ys w [] cs2 Hb E2) as (c2 & H2f & ->).
  rewrite (concatLoop_contents this _ (xs ++ ys) (c1 ++ c2) Hb w [])
    by (now apply Forall2_app).
  cbn [bind app]. f_equal. apply join_sep_app.
  - intros ->. inversion H1f. now subst.
  - intros ->. inversion H2f. now subst.
Qed.

(** X13. Without [distPath] (absent or empty) no file and no object is
    changed, whether the entries can be read or not. *)
Theorem concatFilesContent_without_distPath (w : World FS) params :
  JS.truthy (concat_distPath params) = false ->
  fs (fst (concatFilesContent lib this w params)) = fs w
  /\ heap (fst (concatFilesContent lib this w params)) = heap w.
Proof.
  intros Hd. unfold concatFilesContent, concatFilesContentWith. rewrite Hd.
  pose proof (concatLoop_fs this (buildBootstrap3 lib this)
                (default [] (filesArr params)) w []
                (buildBootstrap3_readsOnly lib this)) as Hfs.
  pose proof (concatLoop_heap (buildBootstrap3 lib this)
                (default [] (filesArr params)) w []
                buildBootstrap3_heap) as Hheap.
  destruct (concatLoop this _ w _ []) as [w1 [cs|e]]; now split.
Qed.

End ConcatExtras.

(** A normalized path that ends with the character [s] has segments and no
    trailing separator. *)
Lemma assembled_ends_with_s isAbs trailing S :
  stackOk (negb isAbs) S = true ->
  JS.lastChar (assemble isAbs trailing (rev S)) = Some "s"%char ->
  trailing = false /\ rev S <> [].
Proof.
  intros Hok Hlast.
  assert (Hplain : forallb plain (rev S) = true).
  { rewrite forallb_rev. eapply stackOk_plain; exact Hok. }
  destruct (rev S) as [|x l].
  - destruct isAbs, trailing; discriminate Hlast.
  - split; [|congruence]. destruct trailing; [|reflexivity].
    pose proof (assemble_trailing_true isAbs x l) as Ht.
    unfold Path.trailingSeparator in Ht. rewrite Hlast in Ht.
    discriminate Ht.
Qed.

Lemma bootstrapRoot_ends_with_s lib :
  JS.lastChar (bootstrapRoot lib) = Some "s"%char.
Proof.
  unfold bootstrapRoot, Path.join, Path.joinArgs. cbn [JS.isEmpty].
  destruct (JS.isEmpty (process_cwd lib)).
  - exact (normalize_keeps_last "/node_modules/bootstrap" "less" eq_refl).
  - unfold JS.cat.
    change (String.append "/" "/node_modules/bootstrap/less")
      with (String.append "//node_modules/bootstrap" (String "/" "less")).
    rewrite <- append_assoc.
    exact (normalize_keeps_last _ "less" eq_refl).
Qed.

(** Joining a normalized path without trailing separator, [/] and a name
    puts the name behind the path. *)
Lemma join_root_name isAbs S name :
  stackOk (negb isAbs) S = true -> rev S <> [] ->
  isName name = true ->
  Path.join [assemble isAbs false (rev S); "/"; name]
  = String.append (assemble isAbs false (rev S)) (String "/" name).
Proof.
  intros Hok Hne Hname.
  assert (Hplain : forallb plain (rev S) = true).
  { rewrite forallb_rev. eapply stackOk_plain; exact Hok. }
  pose proof (isName_plain _ Hname) as HplainN.
  set (r := assemble isAbs false (rev S)).
  assert (HneR : JS.isEmpty r = false) by now apply assemble_isEmpty.
  assert (HneN : JS.isEmpty name = false).
  { unfold plain in HplainN. apply andb_prop in HplainN as [Hn _].
    now apply negb_true_iff in Hn. }
  unfold Path.join, Path.joinArgs. rewrite HneR, HneN. cbn [JS.isEmpty].
  unfold JS.cat.
  change (String.append "/" "/") with (String "/" "/").
  change (String.append "/" name) with (String "/" name).
  set (q := String.append (String.append r (String "/" "/"))
                          (String "/" name)).
  assert (Hq : JS.isEmpty q = false).
  { unfold q. destruct r; [discriminate|reflexivity]. }
  assert (Habs : Path.isAbsolute q = isAbs).
  { unfold q. rewrite append_assoc, isAbsolute_append by exact HneR.
    now apply assemble_isAbsolute. }
  assert (Htrail : Path.trailingSeparator q = false).
  { unfold q. rewrite trailingSeparator_append by reflexivity.
    change (String "/" name) with (String.append "/" name).
    rewrite trailingSeparator_append by exact HneN.
    destruct (plain_cons _ HplainN) as (c & t & -> & Hc & Ht).
    destruct (lastChar_some t c) as [d Hd].
    unfold Path.trailingSeparator. rewrite Hd.
    eapply lastChar_noSlash; [|exact Hd]. simpl. now rewrite Hc, Ht. }
  destruct (normalize_unfold q Hq) as (S' & HS' & _ & ->).
  rewrite Habs, Htrail in *.
  assert (HokN : stackOk (negb isAbs) ([name] ++ S) = true).
  { apply stackOk_names_app; [|exact Hok]. cbn. now rewrite Hname. }
  assert (E : rev S' = rev S ++ [name]).
  { rewrite <- HS'. unfold q.
    rewrite segments_app_slash, segments_app_slash.
    rewrite (segments_noSlash name)
      by (unfold plain in HplainN; now apply andb_prop in HplainN as [_ ?]).
    rewrite <- app_assoc. unfold r.
    rewrite normalizeSegments_assemble by (now rewrite app_nil_r).
    rewrite app_nil_r.
    change (Path.segments "/") with [""; ""]. cbn [app].
    rewrite !normalizeSegments_skip_empty.
    rewrite (normalizeSegments_push (negb isAbs) name S []) by exact HokN.
    reflexivity. }
  rewrite E. unfold r.
  destruct (rev S) as [|x l] eqn:HS; [congruence|].
  change ((x :: l) ++ [name]) with (x :: (l ++ [name])).
  rewrite !assemble_cons.
  change (x :: l ++ [name]) with ((x :: l) ++ [name]).
  rewrite join_app by congruence.
  now rewrite !append_empty_r, !append_assoc.
Qed.

(** X19. Whatever the working directory, the component files are read, in
    the order of the list, from [<bootstrapRoot>/<name>.less]. *)
Theorem bootstrapPaths_under_root lib :
  bootstrapPaths lib
  = List.map (fun fileName =>
                JS.cat (bootstrapRoot lib)
                       (JS.cat "/" (JS.cat fileName ".less")))
             bootstrapFiles.
Proof.
  unfold bootstrapPaths. apply map_ext_in. intros f Hin.
  pose proof bootstrapFiles_names as Hall.
  rewrite forallb_forall in Hall. specialize (Hall f Hin).
  pose proof (bootstrapRoot_ends_with_s lib) as Hlast.
  assert (Hnorm : exists isAbs S,
            stackOk (negb isAbs) S = true /\ rev S <> []
            /\ bootstrapRoot lib = assemble isAbs false (rev S)).
  { unfold bootstrapRoot in *. unfold Path.join in *.
    destruct (Path.joinArgs None _) as [j|]; [|discriminate Hlast].
    destruct (normalize_spec j) as (isAbs & trailing & S & Hok & E).
    rewrite E in Hlast.
    destruct (assembled_ends_with_s _ _ _ Hok Hlast) as [-> Hne].
    now exists isAbs, S. }
  destruct Hnorm as (isAbs & S & Hok & Hne & ->).
  now apply join_root_name.
Qed.

Lemma isAbsolute_normalize q :
  JS.isEmpty q = false ->
  Path.isAbsolute (Path.normalize q) = Path.isAbsolute q.
Proof.
  intros Hq. destruct (normalize_unfold q Hq) as (S & _ & Hok & ->).
  apply assemble_isAbsolute. rewrite forallb_rev.
  eapply stackOk_plain; exact Hok.
Qed.

(** [path.resolve] returns a normalized absolute path without trailing
    separator as it is. *)
Lemma path_resolve_absolute cwd S x l :
  stackOk false S = true -> rev S = x :: l ->
  path_resolve cwd (assemble true false (x :: l))
  = assemble true false (x :: l).
Proof.
  intros Hok HS. unfold path_resolve.
  assert (Hplain : forallb plain (x :: l) = true).
  { rewrite <- HS, forallb_rev. eapply stackOk_plain; exact Hok. }
  rewrite (assemble_isEmpty true false _ Hplain).
  rewrite (assemble_isAbsolute true false _ Hplain).
  unfold JS.cat.
  rewrite isAbsolute_append by now apply assemble_isEmpty.
  rewrite (assemble_isAbsolute true false _ Hplain).
  unfold Path.normalizeString.
  change (String.append (assemble true false (x :: l)) "/")
    with (String.append (assemble true false (x :: l)) (String "/" "")).
  rewrite segments_app_slash. change (Path.segments "") with [""].
  rewrite <- HS.
  rewrite (normalizeSegments_assemble false true false S [] [""])
    by (now rewrite app_nil_r).
  rewrite app_nil_r. cbn [Path.normalizeSegments].
  change (String.eqb "" "" || String.eqb "" ".") with true. cbv iota.
  cbn [Path.normalizeSegments]. rewrite HS. reflexivity.
Qed.

Lemma normalizeSegments_trailing_empty allow segs : forall res,
  Path.normalizeSegments allow res (segs ++ [""])
  = Path.normalizeSegments allow res segs.
Proof.
  induction segs as [|s segs IH]; intros res; [reflexivity|].
  cbn [app Path.normalizeSegments].
  destruct (String.eqb s "" || String.eqb s "."); [apply IH|].
  destruct (String.eqb s ".."); [|apply IH].
  destruct res as [|last res']; [apply IH|].
  destruct (String.eqb last ".."); apply IH.
Qed.

(** [path.resolve] puts the working directory in front of a relative
    path. *)
Lemma path_resolve_relative cwd p :
  JS.isEmpty cwd = false -> Path.isAbsolute cwd = false ->
  JS.isEmpty p = false -> Path.isAbsolute p = false ->
  Path.trailingSeparator p = false ->
  path_resolve cwd p = Path.join [cwd; p].
Proof.
  intros Hcwd Hrel Hp HrelP Htrail.
  unfold path_resolve, Path.join, Path.joinArgs.
  rewrite Hp, HrelP, Hcwd. unfold JS.cat.
  change (String.append "/" (String.append p "/"))
    with (String "/" (String.append p "/")).
  change (String.append "/" p) with (String "/" p).
  set (q := String.append cwd (String "/" p)).
  assert (Hfull : String.append cwd (String "/" (String.append p "/"))
                  = String.append q (String "/" "")).
  { unfold q. rewrite append_assoc, append_cons. reflexivity. }
  rewrite Hfull.
  assert (Hq : JS.isEmpty q = false).
  { unfold q. destruct cwd; [discriminate|reflexivity]. }
  assert (HrelQ : Path.isAbsolute q = false).
  { unfold q. now rewrite isAbsolute_append. }
  assert (HtrailQ : Path.trailingSeparator q = false).
  { unfold q. rewrite trailingSeparator_append by reflexivity.
    change (String "/" p) with (String.append "/" p).
    now rewrite trailingSeparator_append. }
  rewrite isAbsolute_append, HrelQ by exact Hq.
  unfold Path.normalize. rewrite Hq, HrelQ, HtrailQ. cbn [negb].
  unfold Path.normalizeString.
  rewrite segments_app_slash. change (Path.segments "") with [""].
  rewrite normalizeSegments_trailing_empty. reflexivity.
Qed.

(** The directory of Bootstrap is a normalized path that ends in a name; it
    is absolute when the working directory is absolute or empty. *)
Lemma bootstrapRoot_named lib :
  exists S x l,
    let isAbs :=
      Path.isAbsolute (process_cwd lib) || JS.isEmpty (process_cwd lib) in
    stackOk (negb isAbs) S = true /\ rev S = x :: l
    /\ bootstrapRoot lib = assemble isAbs false (x :: l).
Proof.
  pose proof (bootstrapRoot_ends_with_s lib) as Hlast.
  assert (Habs : Path.isAbsolute (bootstrapRoot lib)
                 = Path.isAbsolute (process_cwd lib)
                   || JS.isEmpty (process_cwd lib)).
  { unfold bootstrapRoot, Path.join, Path.joinArgs.
    destruct (process_cwd lib) as [|c r] eqn:E; [reflexivity|].
    cbn [JS.isEmpty]. rewrite isAbsolute_normalize by reflexivity.
    rewrite orb_false_r. reflexivity. }
  rewrite <- Habs. clear Habs.
  unfold bootstrapRoot in *. unfold Path.join in *.
  destruct (Path.joinArgs None _) as [j|]; [|discriminate Hlast].
  destruct (normalize_spec j) as (isAbs & trailing & S & Hok & E).
  rewrite E in *.
  destruct (assembled_ends_with_s _ _ _ Hok Hlast) as [-> Hne].
  destruct (rev S) as [|x l] eqn:HS; [congruence|].
  exists S, x, l. cbv zeta.
  rewrite assemble_isAbsolute; [now repeat split|].
  rewrite <- HS, forallb_rev. eapply stackOk_plain; exact Hok.
Qed.

(** The [filename] option given to [less]. *)
Lemma bootstrap_less_filename lib :
  path_resolve (process_cwd lib) (Path.join [bootstrapRoot lib; "/_.less"])
  = if Path.isAbsolute (process_cwd lib)
    then String.append (bootstrapRoot lib) "/_.less"
    else Path.join [process_cwd lib;
                    String.append (bootstrapRoot lib) "/_.less"].
Proof.
  destruct (bootstrapRoot_named lib) as (S & x & l & Hroot).
  cbv zeta in Hroot. destruct Hroot as (Hok & HS & ER).
  remember (Path.isAbsolute (process_cwd lib)
            || JS.isEmpty (process_cwd lib)) as isAbs eqn:Habs.
  symmetry in Habs.
  assert (HS' : rev ("_.less" :: S) = x :: (l ++ ["_.less"])).
  { cbn [rev]. now rewrite HS. }
  assert (Hok' : stackOk (negb isAbs) ("_.less" :: S) = true).
  { cbn [stackOk]. now rewrite Hok. }
  assert (Hplain : forallb plain (x :: l ++ ["_.less"]) = true).
  { rewrite <- HS', forallb_rev. eapply stackOk_plain; exact Hok'. }
  assert (Hjoin : Path.join [bootstrapRoot lib; "/_.less"]
                  = assemble isAbs false (x :: l ++ ["_.less"])).
  { rewrite ER.
    change "/_.less" with (assemble true false (rev ["_.less"])).
    rewrite <- HS.
    rewrite join_assembled by reflexivity || exact Hok.
    change (Path.trailingSeparator (assemble true false (rev ["_.less"])))
      with false.
    rewrite <- rev_app_distr. cbn [app]. now rewrite HS'. }
  assert (Hstring : assemble isAbs false (x :: l ++ ["_.less"])
                    = String.append (bootstrapRoot lib) "/_.less").
  { rewrite ER, !assemble_cons.
    change (x :: l ++ ["_.less"]) with ((x :: l) ++ ["_.less"]).
    rewrite join_app by congruence.
    now rewrite !append_empty_r, !append_assoc. }
  rewrite Hjoin. rewrite <- Hstring.
  destruct isAbs.
  - cbn [negb] in *.
    rewrite (path_resolve_absolute _ ("_.less" :: S) x (l ++ ["_.less"]))
      by assumption.
    destruct (Path.isAbsolute (process_cwd lib)); [reflexivity|].
    cbn [orb] in Habs. unfold Path.join, Path.joinArgs. rewrite Habs.
    rewrite (assemble_isEmpty true false _ Hplain).
    rewrite <- HS'. symmetry. now apply (normalize_assemble true false).
  - apply orb_false_elim in Habs as [Hrel Hne]. rewrite Hrel.
    apply path_resolve_relative; try assumption.
    + now apply assemble_isEmpty.
    + now apply assemble_isAbsolute.
    + now apply assemble_trailing.
Qed.

(** Two lists are related element by element when their images agree. *)
Lemma Forall2_of_map {A B C} (f : A -> C) (g : B -> C) l1 l2 :
  List.map f l1 = List.map g l2 -> Forall2 (fun a b => f a = g b) l1 l2.
Proof.
  revert l2. induction l1 as [|a l1 IH]; intros [|b l2] E;
    try discriminate E; constructor.
  - now injection E.
  - apply IH. now injection E.
Qed.

Section BundleExtras.

Context {FS : Type} `{FileSystem FS}.
Variable lib : Collaborators.
Variable this : Settings.

(** X16. When Bootstrap and [less] are installed, [less] is given the
    contents of the component files, in the order of the list, with a
    newline character between two of them, followed by the four lines of
    the [.row] override, each after a newline. The file name it is given is
    [_.less] in the directory of Bootstrap: [path.resolve] leaves that path
    as it is when the working directory is absolute, and puts a relative
    working directory in front of it once more. The css of [less] is the
    result, and its error is rejected with the prefix
    [Less compilation error:]. *)
Theorem buildBootstrap3_compiles_bundle (w : World FS) contents render :
  existsSync (fs w) (bootstrapRoot lib) = true ->
  Forall2 (fun p c => readFile (fs w) p (settings_fileEncoding this) = Ok c)
          (bootstrapPaths lib) contents ->
  require_less lib = Some render ->
  let newline := String "010" "" in
  let override :=
    [ ""; "        .row * {"; "          box-sizing: border-box;";
      "        }"; "      " ] in
  let filename :=
    if Path.isAbsolute (process_cwd lib)
    then String.append (bootstrapRoot lib) "/_.less"
    else Path.join [process_cwd lib;
                    String.append (bootstrapRoot lib) "/_.less"] in
  buildBootstrap3 lib this w
  = (w, match render
                (String.append (String.concat newline contents)
                               (String.concat newline override))
                filename with
        | Ok styles => Ok styles
        | Err message =>
            Err (StylesheetCompileError
                   (String.append "Less compilation error:" message))
        end).
Proof.
  intros Hroot Hall Hless newline override filename.
  unfold buildBootstrap3, buildBootstrap3With.
  rewrite Hroot, Hless, concatFilesContentWith_nodist.
  rewrite (concatLoop_literal_ok this neverCalled _ contents w []
             (bootstrapPaths_not_reserved lib) Hall).
  cbn [fst snd bind app].
  rewrite (bootstrap_less_filename lib). fold filename.
  change (JS.cat (JS.join EOL contents) rowOverride)
    with (String.append (String.concat newline contents)
                        (String.concat newline override)).
  destruct (render _ _); reflexivity.
Qed.

End BundleExtras.

Section MinifyExtras.

Context {FS : Type} `{FileSystem FS}.
Variable lib : Collaborators.
Variable this : Settings.

(** X20. Without [content], a minifier fails with a [TypeError] when
    [srcPath] is absent and with the error of the read when the file cannot
    be read; the minifier library is not reached and nothing is written. *)
Theorem minify_without_input (w : World FS) params :
  JS.truthy (content params) = false ->
  (srcPath params = None ->
   minifyJsContent lib this w params
   = (w, Err (TypeError "path must be a string or Buffer"))
   /\ minifyCssContent lib this w params
      = (w, Err (TypeError "path must be a string or Buffer")))
  /\ (forall p errno,
        srcPath params = Some p ->
        readFile (fs w) p (settings_fileEncoding this) = Err errno ->
        minifyJsContent lib this w params = (w, Err (IOError errno))
        /\ minifyCssContent lib this w params = (w, Err (IOError errno))).
Proof.
  intros Hc. unfold minifyJsContent, minifyCssContent, minifyInput.
  rewrite Hc. split.
  - intros ->. split; reflexivity.
  - intros p errno -> Hread. unfold readFileSync, liftIO. rewrite Hread.
    split; reflexivity.
Qed.

(** X21. A minifier leaves the world as it is when [distPath] is absent or
    empty, and when the text cannot be obtained or minified. *)
Theorem minify_changes_files_only_by_writing (w : World FS) params :
  (JS.truthy (distPath params) = false ->
   fst (minifyJsContent lib this w params) = w
   /\ fst (minifyCssContent lib this w params) = w)
  /\ (isOk (bind (minifyInput this w params) (uglifyJS_minify lib)) = false ->
      fst (minifyJsContent lib this w params) = w)
  /\ (isOk (bind (minifyInput this w params) (CleanCSS_minify lib)) = false ->
      fst (minifyCssContent lib this w params) = w).
Proof.
  unfold minifyJsContent, minifyCssContent, writeIfDistPath.
  split; [|split].
  - intros ->. split.
    + destruct (bind _ (uglifyJS_minify lib)); reflexivity.
    + destruct (bind _ (CleanCSS_minify lib)); reflexivity.
  - destruct (bind _ (uglifyJS_minify lib)); [discriminate|reflexivity].
  - destruct (bind _ (CleanCSS_minify lib)); [discriminate|reflexivity].
Qed.

(** X22. Without [data], [buildCustomCssFromScss] gives the compiler the
    content of [file], read before the compiler is called, and fails with
    the error of the read when there is none; without [file] too the
    compiler gets no data. An absent or empty [outputStyle] is
    [compressed]. *)
Theorem buildCustomCssFromScss_without_data (w : World FS) params :
  JS.truthy (data params) = false ->
  let options text :=
    {| sass.file := file params;
       sass.data := text;
       sass.outputStyle := orDefault (outputStyle params) "compressed";
       sass.outFile := outFile params;
       sass.sourceMap := sourceMap params;
       sass.sourceMapContents := sourceMapContents params |} in
  (JS.truthy (file params) = false ->
   buildCustomCssFromScss lib this w params = sass_render lib (options None))
  /\ (forall f,
        file params = Some f -> JS.isEmpty f = false ->
        buildCustomCssFromScss lib this w params
        = match readFile (fs w) f (settings_fileEncoding this) with
          | Ok text => sass_render lib (options (Some text))
          | Err errno => Err (IOError errno)
          end).
Proof.
  intros Hd options. subst options. cbv beta.
  unfold buildCustomCssFromScss. rewrite Hd. cbn [orb].
  split.
  - intros ->. reflexivity.
  - intros f Hf Hne. rewrite Hf. cbn [JS.truthy]. rewrite Hne. cbn [negb].
    unfold readFileSync, liftIO.
    destruct (readFile (fs w) f _); reflexivity.
Qed.

(** X4. Under roots that have a name and no trailing separator, the file
    read by a job whose source does not go up with [..] lies under the
    source root, segment by segment, unless the source starts with the
    characters of the root without lying under it: such a source is used as
    it is. The same holds for the file written, which is the path of a
    fulfilled result, and the distribution root. *)
Theorem compileHbsTemplate_stays_under_roots (w : World FS) params :
  plainRoot (settings_src this) = true ->
  Path.normalize (settings_src this) <> "/" ->
  plainRoot (settings_dist this) = true ->
  Path.normalize (settings_dist this) <> "/" ->
  climbsAbove (source params) = false ->
  climbsAbove (target params) = false ->
  let startsWith root p :=
    String.prefix (Path.normalize root) (Path.normalize p) in
  liesUnder (settings_src this) (hbsSource this params)
  = negb (startsWith (settings_src this) (source params))
    || liesUnder (settings_src this) (source params)
  /\ liesUnder (settings_dist this) (hbsTarget this params)
     = negb (startsWith (settings_dist this) (target params))
       || liesUnder (settings_dist this) (target params)
  /\ forall r,
       promise (snd (compileHbsTemplate lib this w params)) = Fulfilled r ->
       liesUnder (settings_dist this) (targetPath r)
       = negb (startsWith (settings_dist this) (target params))
         || liesUnder (settings_dist this) (target params).
Proof.
  intros Hsrc Hsrc' Hdist Hdist' Hs Ht startsWith.
  unfold hbsSource, hbsTarget, startsWith.
  split; [now apply resolvePath_liesUnder|].
  split; [now apply resolvePath_liesUnder|].
  intros r Hr. rewrite (compileHbsTemplate_targetPath lib this w params r Hr).
  now apply resolvePath_liesUnder.
Qed.

End MinifyExtras.

(** ** Template jobs *)

Section TemplateExtras.

Context {FS : Type} `{FileSystem FS}.
Variable lib : Collaborators.
Variable this : Settings.

(** X5. When the source is read, the template renders, the directory is
    made and the file is written, the promise is fulfilled with the
    rendered text and the resolved target, no exception escapes, and the
    files are those left by the write of that text to that target. *)
Theorem compileHbsTemplate_writes_rendered
    (w : World FS) params body text f1 f2 :
  readFile (fs w) (hbsSource this params) (settings_fileEncoding this)
  = Ok body ->
  Handlebars_compile lib body (hbsHeap this (heap w) params)
    (fresh (dom (heap w))) = Ok text ->
  mkdirp (fs w) (Path.dirname (hbsTarget this params)) = Ok f1 ->
  writeFile f1 (hbsTarget this params) text (settings_fileEncoding this)
  = Ok f2 ->
  snd (compileHbsTemplate lib this w params)
  = {| promise := Fulfilled {| targetBody := text;
                               targetPath := hbsTarget this params |};
       uncaught := None |}
  /\ fs (fst (compileHbsTemplate lib this w params)) = f2.
Proof.
  unfold hbsHeap, hbsSource, hbsTarget. intros Hread Hrender Hdir Hwrite.
  unfold compileHbsTemplate, newObject. cbn [fs heap].
  rewrite Hread, Hrender, Hdir, Hwrite. split; reflexivity.
Qed.

(** X6. A fulfilled promise means that all four steps succeeded: the
    source was read, its template rendered [targetBody] in the new data
    object, the directory was made, and [targetBody] was written to the
    resolved target, which is [targetPath]. *)
Theorem compileHbsTemplate_fulfilled_inv (w : World FS) params r :
  promise (snd (compileHbsTemplate lib this w params)) = Fulfilled r ->
  exists body f1,
    readFile (fs w) (hbsSource this params) (settings_fileEncoding this)
    = Ok body
    /\ Handlebars_compile lib body (hbsHeap this (heap w) params)
         (fresh (dom (heap w))) = Ok (targetBody r)
    /\ mkdirp (fs w) (Path.dirname (hbsTarget this params)) = Ok f1
    /\ writeFile f1 (hbsTarget this params) (targetBody r)
         (settings_fileEncoding this)
       = Ok (fs (fst (compileHbsTemplate lib this w params)))
    /\ targetPath r = hbsTarget this params
    /\ uncaught (snd (compileHbsTemplate lib this w params)) = None.
Proof.
  unfold hbsHeap, hbsSource, hbsTarget.
  unfold compileHbsTemplate, newObject. cbn [fs heap].
  destruct (readFile (fs w) _ _) as [body|e]; [|discriminate].
  destruct (Handlebars_compile lib body _ _) as [text|e] eqn:Hr;
    [|discriminate].
  destruct (mkdirp (fs w) _) as [f1|e]; [|discriminate].
  destruct (writeFile f1 _ text _) as [f2|e] eqn:Hw; cbn; [|discriminate].
  intros [= <-]. exists body, f1. cbn. auto 10.
Qed.

(** X7. An exception of the template engine or of [mkdirp] is thrown
    inside the callback of [fs.readFile]: the promise stays pending, the
    exception is not caught, and no file is changed. *)
Theorem compileHbsTemplate_exception_leaves_pending
    (w : World FS) params body :
  readFile (fs w) (hbsSource this params) (settings_fileEncoding this)
  = Ok body ->
  let rendered :=
    Handlebars_compile lib body (hbsHeap this (heap w) params)
      (fresh (dom (heap w))) in
  let out := compileHbsTemplate lib this w params in
  (forall e, rendered = Err e ->
     snd out = {| promise := Pending; uncaught := Some e |}
     /\ fs (fst out) = fs w)
  /\ (forall text e,
        rendered = Ok text ->
        mkdirp (fs w) (Path.dirname (hbsTarget this params)) = Err e ->
        snd out = {| promise := Pending; uncaught := Some (IOError e) |}
        /\ fs (fst out) = fs w).
Proof.
  intros Hread rendered out. subst rendered out.
  unfold hbsHeap, hbsSource, hbsTarget in *.
  unfold compileHbsTemplate, newObject. cbn [fs heap].
  rewrite Hread. split.
  - intros e ->. split; reflexivity.
  - intros text e -> ->. split; reflexivity.
Qed.

(** X8. When the write fails the promise is rejected with the error of
    the write; the [resolve] that follows does not change it, no exception
    escapes, and the directory that was made stays. *)
Theorem compileHbsTemplate_write_failure
    (w : World FS) params body text f1 e :
  readFile (fs w) (hbsSource this params) (settings_fileEncoding this)
  = Ok body ->
  Handlebars_compile lib body (hbsHeap this (heap w) params)
    (fresh (dom (heap w))) = Ok text ->
  mkdirp (fs w) (Path.dirname (hbsTarget this params)) = Ok f1 ->
  writeFile f1 (hbsTarget this params) text (settings_fileEncoding this)
  = Err e ->
  snd (compileHbsTemplate lib this w params)
  = {| promise := Rejected (IOError e); uncaught := None |}
  /\ fs (fst (compileHbsTemplate lib this w params)) = f1.
Proof.
  unfold hbsHeap, hbsSource, hbsTarget. intros Hread Hrender Hdir Hwrite.
  unfold compileHbsTemplate, newObject. cbn [fs heap].
  rewrite Hread, Hrender, Hdir, Hwrite. split; reflexivity.
Qed.

(** The loop started with results [acc] is the loop started with none,
    with [acc] put in front. *)
Lemma compileHbsLoop_acc data files : forall (w : World FS) acc,
  compileHbsLoop lib this w files data acc
  = (fst (fst (compileHbsLoop lib this w files data [])),
     acc ++ snd (fst (compileHbsLoop lib this w files data [])),
     afterResults acc (snd (compileHbsLoop lib this w files data []))).
Proof.
  induction files as [|f files IH]; intros w acc.
  - cbn. unfold afterResults. cbn. now rewrite app_nil_r.
  - cbn [compileHbsLoop].
    destruct (compileHbsTemplate lib this w _) as [w1 o].
    destruct (uncaught o) as [e|].
    + cbn. now rewrite app_nil_r.
    + destruct (promise o) as [|r|e]; cbn; rewrite ?app_nil_r; try reflexivity.
      rewrite (IH w1 (acc ++ [r])), (IH w1 [r]). cbn [fst snd].
      rewrite <- !app_assoc. f_equal.
      unfold afterResults. cbn.
      destruct (promise (snd (compileHbsLoop lib this w1 files data [])));
        cbn; rewrite <- ?app_assoc; reflexivity.
Qed.

Lemma compileHbsLoop_fulfilled data files : forall (w : World FS) acc,
  isFulfilled (snd (compileHbsLoop lib this w files data acc)) = true ->
  promise (snd (compileHbsLoop lib this w files data acc))
  = Fulfilled (snd (fst (compileHbsLoop lib this w files data acc))).
Proof.
  induction files as [|f files IH]; intros w acc; [reflexivity|].
  cbn [compileHbsLoop].
  destruct (compileHbsTemplate lib this w _) as [w1 o].
  destruct (uncaught o) as [e|]; [discriminate|].
  destruct (promise o) as [|r|e]; try discriminate. apply IH.
Qed.

(** X10. A batch whose first jobs are fulfilled goes on with the others
    from the world the first ones left: its outcome is the outcome of the
    others with the results of the first ones in front. *)
Theorem compileHbsTemplates_app (w : World FS) xs ys data rs :
  snd (compileHbsTemplates lib this w {| files := xs; hbss_data := data |})
  = {| promise := Fulfilled rs; uncaught := None |} ->
  let w1 :=
    fst (compileHbsTemplates lib this w
           {| files := xs; hbss_data := data |}) in
  let rest :=
    compileHbsTemplates lib this w1 {| files := ys; hbss_data := data |} in
  compileHbsTemplates lib this w {| files := xs ++ ys; hbss_data := data |}
  = (fst rest, afterResults rs (snd rest)).
Proof.
  unfold compileHbsTemplates. cbn [files hbss_data].
  destruct (compileHbsLoop lib this w xs data []) as [[w1 rs1] o1] eqn:Hxs.
  cbn [fst snd]. intros ->.
  pose proof (compileHbsLoop_fulfilled data xs w []) as Hf.
  rewrite Hxs in Hf. cbn in Hf. specialize (Hf eq_refl).
  injection Hf as <-.
  rewrite (compileHbsLoop_app lib this data xs ys w [] w1 rs _ Hxs eq_refl).
  rewrite compileHbsLoop_acc.
  destruct (compileHbsLoop lib this w1 ys data []) as [[w2 rs2] o2].
  reflexivity.
Qed.

Lemma compileHbsLoop_heap data files : forall (w : World FS) acc l o,
  heap w !! l = Some o ->
  heap (fst (fst (compileHbsLoop lib this w files data acc))) !! l = Some o.
Proof.
  induction files as [|f files IH]; intros w acc l o Hl; [exact Hl|].
  cbn [compileHbsLoop].
  pose proof (compileHbsTemplate_heap lib this w
                {| source := file_source f; target := file_target f;
                   hbs_data := data |}) as Hh.
  destruct (compileHbsTemplate lib this w _) as [w1 oj]. cbn [fst] in Hh.
  assert (Hl1 : heap w1 !! l = Some o).
  { rewrite Hh, lookup_insert_ne; [exact Hl|].
    intros <-. pose proof (is_fresh (dom (heap w))) as Hfresh.
    apply Hfresh. apply elem_of_dom. now exists o. }
  destruct (uncaught oj); [exact Hl1|].
  destruct (promise oj); try exact Hl1. now apply IH.
Qed.

(** X11. Whatever the outcome of a batch, every object that was in the
    heap before it, the shared [data] among them, is the same after it. *)
Theorem compileHbsTemplates_keeps_objects (w : World FS) params l o :
  heap w !! l = Some o ->
  heap (fst (compileHbsTemplates lib this w params)) !! l = Some o.
Proof.
  intros Hl. unfold compileHbsTemplates.
  pose proof (compileHbsLoop_heap (hbss_data params) (files params) w []
                l o Hl) as Hk.
  destruct (compileHbsLoop lib this w (files params) (hbss_data params) [])
    as [[w1 rs] o1]. exact Hk.
Qed.

End TemplateExtras.

Section TemplateExtras2.

Context {FS : Type} `{FileSystem FS}.
Variable lib : Collaborators.
Variable this : Settings.

Lemma compileHbsLoop_promise_fulfilled data files :
  forall (w : World FS) acc rs,
  promise (snd (compileHbsLoop lib this w files data acc)) = Fulfilled rs ->
  isFulfilled (snd (compileHbsLoop lib this w files data acc)) = true.
Proof.
  induction files as [|f files IH]; intros w acc rs; [reflexivity|].
  cbn [compileHbsLoop].
  destruct (compileHbsTemplate lib this w _) as [w1 o].
  destruct (uncaught o) as [e|]; [discriminate|].
  destruct (promise o) as [|r|e]; try discriminate. apply IH.
Qed.

(** X9. A fulfilled batch has one result for each job, in the order of the
    jobs, each with the resolved target of its job. *)
Theorem compileHbsTemplates_results (w : World FS) params rs :
  promise (snd (compileHbsTemplates lib this w params)) = Fulfilled rs ->
  List.map targetPath rs
  = List.map (fun f => resolvePath (settings_dist this) (file_target f))
             (files params)
  /\ length rs = length (files params)
  /\ uncaught (snd (compileHbsTemplates lib this w params)) = None.
Proof.
  unfold compileHbsTemplates.
  pose proof (compileHbsLoop_promise_fulfilled (hbss_data params)
                (files params) w [] rs) as Hf.
  pose proof (compileHbsLoop_results lib this (hbss_data params)
                (files params) w []) as Hres.
  destruct (compileHbsLoop lib this w (files params) (hbss_data params) [])
    as [[w1 rs1] o] eqn:E.
  cbn [fst snd] in *. intros Hp. specialize (Hf Hp).
  destruct (Hres w1 rs1 o eq_refl Hf) as (Hp' & rs' & -> & Hmap).
  rewrite Hp in Hp'. injection Hp' as ->. cbn [app] in *.
  split; [exact Hmap|]. split.
  - rewrite <- (length_map targetPath), Hmap. apply length_map.
  - unfold isFulfilled in Hf. rewrite Hp in Hf.
    now destruct (uncaught o).
Qed.

End TemplateExtras2.

(** ** Copies *)


Section CopyFacts.

Context {FS : Type} `{FileSystem FS}.
Variable copy : FS -> string -> string -> FS * result error unit.

Lemma copyEach_app dist xs ys : forall f,
  copyEach copy f (xs ++ ys) dist
  = match snd (copyEach copy f xs dist) with
    | Ok _ => copyEach copy (fst (copyEach copy f xs dist)) ys dist
    | Err e => (fst (copyEach copy f xs dist), Err e)
    end.
Proof.
  induction xs as [|x xs IH]; intros f; [reflexivity|].
  cbn [app copyEach]. destruct (copy f x dist) as [f1 [[]|e]]; [|reflexivity].
  apply IH.
Qed.

(** X23. A single path is copied as the array of that path is, and an
    empty array makes [dist] and copies nothing. *)
Theorem copyAssets_single_and_empty (w : World FS) src dist :
  copyAssets copy w {| srcArrayOrPath := inl src; copy_dist := dist |}
  = copyAssets copy w {| srcArrayOrPath := inr [src]; copy_dist := dist |}
  /\ copyAssets copy w {| srcArrayOrPath := inr []; copy_dist := dist |}
     = match mkdirp (fs w) dist with
       | Ok f1 => (withFs w f1, Ok tt)
       | Err e => (w, Err (IOError e))
       end.
Proof.
  unfold copyAssets. cbn [srcArrayOrPath copy_dist copyEach].
  split; destruct (mkdirp (fs w) dist) as [f1|e]; try reflexivity.
  destruct (copy f1 src dist) as [f2 [[]|e]]; reflexivity.
Qed.

(** X24. The copies stop at the first source that fails: the error is
    that of the source, the sources before it are copied, the ones after it
    are not. *)
Theorem copyAssets_fail_fast (w : World FS) pre bad post dist f1 fk fb e :
  mkdirp (fs w) dist = Ok f1 ->
  copyEach copy f1 pre dist = (fk, Ok tt) ->
  copy fk bad dist = (fb, Err e) ->
  copyAssets copy w
    {| srcArrayOrPath := inr (pre ++ bad :: post); copy_dist := dist |}
  = (withFs w fb, Err e).
Proof.
  intros Hdir Hpre Hbad. unfold copyAssets. cbn [srcArrayOrPath copy_dist].
  rewrite Hdir, copyEach_app, Hpre. cbn [fst snd copyEach].
  now rewrite Hbad.
Qed.

End CopyFacts.

(** ** The further properties on the sites *)


Lemma compileHbsTemplate_writes_rendered_witness :
  snd (compileHbsTemplate Fixture.echo Fixture.build Fixture.site
         Scenario.homePage)
  = {| promise := Fulfilled {| targetBody := "Hello a.html";
                               targetPath := "dist/pages/a.html" |};
       uncaught := None |}
  /\ MemFS.files
       (fs (fst (compileHbsTemplate Fixture.echo Fixture.build Fixture.site
                   Scenario.homePage))) !! "dist/pages/a.html"
     = Some "Hello a.html".
Proof.
  edestruct (compileHbsTemplate_writes_rendered Fixture.echo Fixture.build
               Fixture.site Scenario.homePage) as [Hs Hf];
    [reflexivity..|].
  split; [exact Hs|]. rewrite Hf. reflexivity.
Defined.

Lemma compileHbsTemplate_fulfilled_inv_witness :
  exists f1,
    mkdirp (fs Fixture.site) "dist/pages" = Ok f1
    /\ writeFile f1 "dist/pages/a.html" "Hello a.html" "utf-8"
       = Ok (fs (fst (compileHbsTemplate Fixture.echo Fixture.build
                        Fixture.site Scenario.homePage))).
Proof.
  assert (Hp : promise (snd (compileHbsTemplate Fixture.echo Fixture.build
                               Fixture.site Scenario.homePage))
               = Fulfilled {| targetBody := "Hello a.html";
                              targetPath := "dist/pages/a.html" |})
    by (vm_compute; reflexivity).
  destruct (compileHbsTemplate_fulfilled_inv Fixture.echo Fixture.build
              Fixture.site Scenario.homePage _ Hp)
    as (body & f1 & _ & _ & Hdir & Hwrite & _ & _).
  exists f1. split; [exact Hdir|exact Hwrite].
Defined.

Lemma compileHbsTemplate_exception_leaves_pending_witness :
  snd (compileHbsTemplate Scenario.throwing Fixture.build Fixture.site
         Scenario.homePage)
  = {| promise := Pending; uncaught := Some (TemplateError "Parse error") |}
  /\ snd (compileHbsTemplate Fixture.echo Fixture.build Scenario.blockedSite
            Scenario.homePage)
     = {| promise := Pending; uncaught := Some (IOError "EEXIST") |}.
Proof.
  split.
  - exact (proj1 (proj1 (compileHbsTemplate_exception_leaves_pending
                           Scenario.throwing Fixture.build Fixture.site
                           Scenario.homePage "Hello " eq_refl)
                    (TemplateError "Parse error") eq_refl)).
  - exact (proj1 (proj2 (compileHbsTemplate_exception_leaves_pending
                           Fixture.echo Fixture.build Scenario.blockedSite
                           Scenario.homePage "Hello " eq_refl)
                    "Hello a.html" "EEXIST" eq_refl eq_refl)).
Defined.

Lemma compileHbsTemplate_write_failure_witness :
  snd (compileHbsTemplate Fixture.echo Fixture.build Scenario.lockedSite
         Scenario.homePage)
  = {| promise := Rejected (IOError "EACCES"); uncaught := None |}.
Proof.
  edestruct (compileHbsTemplate_write_failure Fixture.echo Fixture.build
               Scenario.lockedSite Scenario.homePage) as [Hs _];
    [reflexivity..|].
  exact Hs.
Defined.

Definition page (n : string) : HbsFile :=
  {| file_source := JS.cat n ".hbs"; file_target := JS.cat n ".html" |}.

Definition pages (names : list string) : ICompileHbsTemplates :=
  {| files := List.map page names; hbss_data := Some 1%positive |}.

Lemma compileHbsTemplates_app_witness :
  promise (snd (compileHbsTemplates Fixture.echo Fixture.build Fixture.site
                  (pages ["a"; "c"])))
  = Fulfilled [ {| targetBody := "Hello a.html";
                   targetPath := "dist/a.html" |};
                {| targetBody := "Bye c.html";
                   targetPath := "dist/c.html" |} ].
Proof.
  pose proof (compileHbsTemplates_app Fixture.echo Fixture.build Fixture.site
                [page "a"] [page "c"] (Some 1%positive)
                [ {| targetBody := "Hello a.html";
                     targetPath := "dist/a.html" |} ]) as Happ.
  cbv zeta in Happ. unfold pages. cbn [List.map].
  change [page "a"; page "c"] with ([page "a"] ++ [page "c"]).
  rewrite Happ; [reflexivity|]. vm_compute. reflexivity.
Defined.

Lemma compileHbsTemplates_keeps_objects_witness :
  heap (fst (compileHbsTemplates Fixture.echo Fixture.build Fixture.site
               (pages ["a"; "b"; "c"]))) !! 1%positive
  = Some Fixture.callerData.
Proof.
  exact (compileHbsTemplates_keeps_objects Fixture.echo Fixture.build
           Fixture.site (pages ["a"; "b"; "c"]) 1%positive
           Fixture.callerData eq_refl).
Defined.

Lemma compileHbsTemplates_results_witness :
  exists rs,
    promise (snd (compileHbsTemplates Fixture.echo Fixture.build
                    Fixture.site (pages ["a"; "c"]))) = Fulfilled rs
    /\ List.map targetPath rs = ["dist/a.html"; "dist/c.html"].
Proof.
  assert (Hp : promise (snd (compileHbsTemplates Fixture.echo Fixture.build
                               Fixture.site (pages ["a"; "c"])))
               = Fulfilled [ {| targetBody := "Hello a.html";
                                targetPath := "dist/a.html" |};
                             {| targetBody := "Bye c.html";
                                targetPath := "dist/c.html" |} ])
    by (vm_compute; reflexivity).
  eexists. split; [exact Hp|].
  exact (proj1 (compileHbsTemplates_results Fixture.echo Fixture.build
                  Fixture.site (pages ["a"; "c"]) _ Hp)).
Defined.

Lemma compileHbsTemplate_stays_under_roots_witness :
  (liesUnder "./src" (hbsSource Fixture.build Scenario.homePage) = true
   /\ liesUnder "./dist" (hbsTarget Fixture.build Scenario.homePage) = true)
  /\ (liesUnder "./src" (hbsSource Fixture.build Scenario.strayPage) = false
      /\ liesUnder "./dist" (hbsTarget Fixture.build Scenario.strayPage) = false).
Proof.
  destruct (compileHbsTemplate_stays_under_roots Fixture.echo Fixture.build
              Fixture.site Scenario.homePage)
    as (Hs & Ht & _); try reflexivity; try discriminate.
  destruct (compileHbsTemplate_stays_under_roots Fixture.echo Fixture.build
              Fixture.site Scenario.strayPage)
    as (Hs' & Ht' & _); try reflexivity; try discriminate.
  split; split; [exact Hs|exact Ht|exact Hs'|exact Ht'].
Defined.

Lemma resolvePath_appends_to_root_witness :
  resolvePath "./src" "pages//a.hbs" = "src/pages/a.hbs"
  /\ resolvePath "./src" "/etc/passwd" = "src/etc/passwd".
Proof.
  split.
  - apply (resolvePath_appends_to_root "./src" "pages//a.hbs");
      (reflexivity || discriminate).
  - apply (resolvePath_appends_to_root "./src" "/etc/passwd");
      (reflexivity || discriminate).
Defined.

Lemma resolvePath_rebases_absolute_witness :
  resolvePath "./dist" "/tmp/out.html" = "dist/tmp/out.html"
  /\ liesUnder "./dist" (resolvePath "./dist" "/tmp/out.html") = true.
Proof.
  destruct (resolvePath_rebases_absolute "./dist" "/tmp/out.html"
              eq_refl eq_refl eq_refl) as (Heq & _ & Hunder).
  split; [exact Heq|exact Hunder].
Defined.

Lemma buildBootstrap3_only_reads_witness :
  fs (fst (buildBootstrap3 Scenario.workingLess Fixture.build
             Fixture.bootstrapSite))
  = fs Fixture.bootstrapSite
  /\ snd (buildBootstrap3 Scenario.workingLess Fixture.build
            (console_log Fixture.bootstrapSite "started"))
     = snd (buildBootstrap3 Scenario.workingLess Fixture.build
              Fixture.bootstrapSite).
Proof.
  destruct (buildBootstrap3_only_reads Scenario.workingLess Fixture.build
              Fixture.bootstrapSite) as (Hfs & _ & Hdep).
  split; [exact Hfs|]. apply Hdep. reflexivity.
Defined.

Lemma buildBootstrap3_degrades_to_empty_witness :
  snd (buildBootstrap3 Fixture.echo Fixture.build Fixture.site) = Ok ""
  /\ console (fst (buildBootstrap3 Fixture.echo Fixture.build Fixture.site))
     = ["No Bootstrap 3 installed found"]
  /\ buildBootstrap3 Fixture.echo Fixture.build Fixture.bootstrapSite
     = (console_log Fixture.bootstrapSite
          "`npm i -D less` is required to build Bootstrap 3", Ok "").
Proof.
  destruct (buildBootstrap3_degrades_to_empty Fixture.echo Fixture.build
              Fixture.site) as [Habsent _].
  destruct (buildBootstrap3_degrades_to_empty Fixture.echo Fixture.build
              Fixture.bootstrapSite) as [_ Hless].
  rewrite (Habsent eq_refl). split; [reflexivity|]. split; [reflexivity|].
  apply (Hless (repeat "" 36)); [reflexivity| |reflexivity].
  vm_compute. repeat constructor.
Defined.

Lemma buildBootstrap3_compiles_bundle_witness :
  snd (buildBootstrap3 Scenario.tracingLess Fixture.build
         Scenario.bootstrapTree)
  = Ok (String.concat (String "010" "")
          ("/work/node_modules/bootstrap/less/_.less"
           :: Scenario.componentNames
           ++ [ "        .row * {"; "          box-sizing: border-box;";
                "        }"; "      " ])).
Proof.
  rewrite (buildBootstrap3_compiles_bundle Scenario.tracingLess
             Fixture.build Scenario.bootstrapTree Scenario.componentNames
             (fun content filename =>
                Ok (String.append filename (String "010" content))));
    [vm_compute; reflexivity|reflexivity| |reflexivity].
  apply (Forall2_of_map
           (fun p => readFile (fs Scenario.bootstrapTree) p
                       (settings_fileEncoding Fixture.build)) Ok).
  vm_compute. reflexivity.
Defined.

Lemma buildBootstrap3_unreadable_component_witness :
  exists e,
    snd (buildBootstrap3 Scenario.workingLess Fixture.build
           Scenario.emptyBootstrapSite) = Err (IOError e).
Proof.
  destruct (buildBootstrap3_unreadable_component Scenario.workingLess
              Fixture.build Scenario.emptyBootstrapSite
              "/work/node_modules/bootstrap/less/variables.less" "ENOENT")
    as (e & He & _).
  - reflexivity.
  - left. reflexivity.
  - reflexivity.
  - exists e. exact He.
Defined.

Lemma buildBootstrap3_does_not_recurse_witness :
  buildBootstrap3 Fixture.brokenLess Fixture.build Fixture.bootstrapSite
  = buildBootstrap3With Fixture.brokenLess
      (concatFilesContent Fixture.brokenLess Fixture.build)
      Fixture.bootstrapSite.
Proof.
  exact (proj1 (buildBootstrap3_does_not_recurse Fixture.brokenLess
                  Fixture.build Fixture.bootstrapSite)).
Defined.

Lemma bootstrapPaths_under_root_witness :
  hd "" (bootstrapPaths Fixture.echo)
  = "/work/node_modules/bootstrap/less/variables.less".
Proof.
  rewrite (bootstrapPaths_under_root Fixture.echo). reflexivity.
Defined.

Definition bundle (entries : list string) : IConcatFilesContent :=
  {| filesArr := Some entries; concat_distPath := None |}.

Lemma concatFilesContent_app_witness :
  snd (concatFilesContent Fixture.echo Fixture.build Fixture.site
         (bundle (["a.css"; "b.css"] ++ ["c.css"])))
  = Ok (JS.cat (JS.cat "A" (JS.cat EOL "B")) (JS.cat EOL "C")).
Proof.
  apply (concatFilesContent_app Fixture.echo Fixture.build Fixture.site
           ["a.css"; "b.css"] ["c.css"]);
    (discriminate || reflexivity).
Defined.

Lemma concatFilesContent_without_distPath_witness :
  fs (fst (concatFilesContent Fixture.echo Fixture.build Fixture.site
             (bundle ["a.css"; "missing.css"])))
  = fs Fixture.site.
Proof.
  exact (proj1 (concatFilesContent_without_distPath Fixture.echo
                  Fixture.build Fixture.site
                  (bundle ["a.css"; "missing.css"]) eq_refl)).
Defined.

Definition readRequest (p : option string) : IMinifyContent :=
  {| content := None; srcPath := p; distPath := Some "dist/out.js" |}.

Lemma minify_without_input_witness :
  minifyJsContent Fixture.echo Fixture.build Fixture.site (readRequest None)
  = (Fixture.site, Err (TypeError "path must be a string or Buffer"))
  /\ minifyCssContent Fixture.echo Fixture.build Fixture.site
       (readRequest (Some "missing.css"))
     = (Fixture.site, Err (IOError "ENOENT")).
Proof.
  destruct (minify_without_input Fixture.echo Fixture.build Fixture.site
              (readRequest None) eq_refl) as [Hnone _].
  destruct (minify_without_input Fixture.echo Fixture.build Fixture.site
              (readRequest (Some "missing.css")) eq_refl) as [_ Hsome].
  split.
  - exact (proj1 (Hnone eq_refl)).
  - exact (proj2 (Hsome "missing.css" "ENOENT" eq_refl eq_refl)).
Defined.

Definition returnOnly : IMinifyContent :=
  {| content := Some "a  {  }"; srcPath := None; distPath := Some "" |}.

Lemma minify_changes_files_only_by_writing_witness :
  fst (minifyJsContent Fixture.echo Fixture.build Fixture.site returnOnly)
  = Fixture.site.
Proof.
  exact (proj1 (proj1 (minify_changes_files_only_by_writing Fixture.echo
                         Fixture.build Fixture.site returnOnly)
                  eq_refl)).
Defined.

Definition scssFile (f : option string) : IBuildCustomCssFromScss :=
  {| file := f;
     data := None;
     outputStyle := Some "";
     outFile := None;
     sourceMap := None;
     sourceMapContents := None |}.

Lemma buildCustomCssFromScss_without_data_witness :
  buildCustomCssFromScss Fixture.echo Fixture.build Fixture.site
    (scssFile (Some "main.scss"))
  = Ok {| sass.css := "a{b:c}"; sass.map := None |}
  /\ buildCustomCssFromScss Fixture.echo Fixture.build Fixture.site
       (scssFile (Some "missing.scss"))
     = Err (IOError "ENOENT")
  /\ buildCustomCssFromScss Fixture.echo Fixture.build Fixture.site
       (scssFile None)
     = Err (StylesheetCompileError "No input specified").
Proof.
  split; [|split].
  - rewrite (proj2 (buildCustomCssFromScss_without_data Fixture.echo
                      Fixture.build Fixture.site
                      (scssFile (Some "main.scss")) eq_refl)
               "main.scss" eq_refl eq_refl).
    reflexivity.
  - rewrite (proj2 (buildCustomCssFromScss_without_data Fixture.echo
                      Fixture.build Fixture.site
                      (scssFile (Some "missing.scss")) eq_refl)
               "missing.scss" eq_refl eq_refl).
    reflexivity.
  - rewrite (proj1 (buildCustomCssFromScss_without_data Fixture.echo
                      Fixture.build Fixture.site (scssFile None) eq_refl)
               eq_refl).
    reflexivity.
Defined.

Definition assets (srcs : list string) : ICopyAssets :=
  {| srcArrayOrPath := inr srcs; copy_dist := "dist/assets" |}.

Lemma copyAssets_single_and_empty_witness :
  MemFS.files
    (fs (fst (copyAssets Scenario.copyFile Fixture.site
                {| srcArrayOrPath := inl "a.css";
                   copy_dist := "dist/assets" |})))
    !! "dist/assets/a.css" = Some "A".
Proof.
  rewrite (proj1 (copyAssets_single_and_empty Scenario.copyFile Fixture.site
                    "a.css" "dist/assets")).
  reflexivity.
Defined.

Lemma copyAssets_fail_fast_witness :
  snd (copyAssets Scenario.copyFile Fixture.site
         (assets (["a.css"] ++ "missing.css" :: ["b.css"])))
  = Err (IOError "ENOENT")
  /\ MemFS.files
       (fs (fst (copyAssets Scenario.copyFile Fixture.site
                   (assets (["a.css"] ++ "missing.css" :: ["b.css"])))))
       !! "dist/assets/a.css" = Some "A"
  /\ MemFS.files
       (fs (fst (copyAssets Scenario.copyFile Fixture.site
                   (assets (["a.css"] ++ "missing.css" :: ["b.css"])))))
       !! "dist/assets/b.css" = None.
Proof.
  unfold assets.
  erewrite (copyAssets_fail_fast Scenario.copyFile Fixture.site
              ["a.css"] "missing.css" ["b.css"] "dist/assets");
    [|reflexivity..].
  repeat split; reflexivity.
Defined.
